(** * Orders microservice: circuit breaker, resilient gateways, order use
      cases and the payment-response worker

    A shallow embedding of the Python sources under [tech/]:
    - [tech/infra/circuit_breaker/circuit_breaker.py]
    - [tech/infra/gateways/*.py]
    - [tech/use_cases/orders/*.py], [tech/interfaces/controllers/order_controller.py]
    - [tech/workers/run_payment_response_worker.py]

    Python calls that may raise are functions into [result]; objects that
    are mutated (the breaker, the outside world) are passed explicitly as
    state, and the state survives a raise, as it does in Python. *)

From Stdlib Require Import ZArith List String Ascii Bool Lia QArith DecimalString.
From Stdlib Require Import DecimalPos DecimalZ.
From Stdlib Require Import Floats.PrimFloat Floats.SpecFloat Floats.FloatOps.
Import ListNotations.

Open Scope string_scope.
Open Scope Z_scope.

(** ** Python: exceptions, results, and the state-and-exception monad *)

Module Py.

(** The subclasses of [Exception] that occur in the sources.  Every
    handler written [except Exception] catches all of them.
    [json.JSONDecodeError] and [UnicodeDecodeError] are subclasses of
    [ValueError]; [OtherException] stands for a class outside those
    named here and outside [ValueError]. *)
Inductive exn : Type :=
| CircuitOpenError (msg : string)
| ValueError (msg : string)
| HTTPStatusError (status_code : Z) (text : string)   (* httpx *)
| ConnectError (msg : string)                         (* httpx *)
| TimeoutException (msg : string)                     (* httpx *)
| JSONDecodeError (msg : string)
| UnicodeDecodeError (msg : string)
| RequestException (msg : string)                     (* requests *)
| AttributeError (msg : string)
| TypeError (msg : string)
| OtherException (msg : string).

(** [str(e)] *)
Definition str_exn (e : exn) : string :=
  match e with
  | CircuitOpenError m | ValueError m | ConnectError m | TimeoutException m
  | JSONDecodeError m | UnicodeDecodeError m | RequestException m
  | AttributeError m | TypeError m | OtherException m => m
  | HTTPStatusError _ t => t
  end.

(** [isinstance(e, ValueError)]: the class itself and its subclasses. *)
Definition is_ValueError (e : exn) : bool :=
  match e with
  | ValueError _ | JSONDecodeError _ | UnicodeDecodeError _ => true
  | _ => false
  end.

Inductive result (A : Type) : Type :=
| Ok (a : A)
| Raise (e : exn).
Arguments Ok {A} a.
Arguments Raise {A} e.

Definition is_raise {A} (r : result A) : bool :=
  match r with Raise _ => true | Ok _ => false end.

(** A computation over a mutable state [S]: it returns or raises, and in
    both cases leaves a state behind. *)
Definition M (S A : Type) : Type := S -> result A * S.

Definition ret {S A} (a : A) : M S A := fun s => (Ok a, s).

Definition raise {S A} (e : exn) : M S A := fun s => (Raise e, s).

Definition bind {S A B} (c : M S A) (k : A -> M S B) : M S B :=
  fun s =>
    match c s with
    | (Ok a, s') => k a s'
    | (Raise e, s') => (Raise e, s')
    end.

(** [try: c  except <any>: h] *)
Definition try_except {S A} (c : M S A) (h : exn -> M S A) : M S A :=
  fun s =>
    match c s with
    | (Ok a, s') => (Ok a, s')
    | (Raise e, s') => h e s'
    end.

(** [str(n)] for an [int] *)
Definition str_int (z : Z) : string := NilZero.string_of_int (Z.to_int z).

(** Truthiness of [str] and of [Optional[str]]. *)
Definition truthy_str (s : string) : bool :=
  match s with EmptyString => false | String _ _ => true end.

Definition truthy_opt_str (o : option string) : bool :=
  match o with None => false | Some s => truthy_str s end.

(** [sep.join(parts)] *)
Fixpoint join (sep : string) (parts : list string) : string :=
  match parts with
  | [] => ""
  | [p] => p
  | p :: rest => p ++ sep ++ join sep rest
  end.

(** [s.split(',')]: the pieces between commas; never an empty list. *)
Fixpoint split_comma (s : string) : list string :=
  match s with
  | EmptyString => [""]
  | String c rest =>
      if Ascii.eqb c ","%char then "" :: split_comma rest
      else match split_comma rest with
           | [] => [String c ""]
           | p :: ps => String c p :: ps
           end
  end.

(** [list(map(f, xs))] where [f] may raise: stops at the first raise. *)
Fixpoint map_result {A B} (f : A -> result B) (xs : list A) : result (list B) :=
  match xs with
  | [] => Ok []
  | x :: rest =>
      match f x with
      | Raise e => Raise e
      | Ok y => match map_result f rest with
                | Raise e => Raise e
                | Ok ys => Ok (y :: ys)
                end
      end
  end.

End Py.

Export Py.

Declare Scope py_scope.
Delimit Scope py_scope with py.
Notation "x <- c ;; k" := (bind c (fun x => k))
  (at level 61, c at next level, right associativity) : py_scope.
Notation "c ;;; k" := (bind c (fun _ => k))
  (at level 61, right associativity) : py_scope.

(** ** tech/infra/circuit_breaker/circuit_breaker.py *)

Module Breaker.

Inductive CircuitState : Type := CLOSED | OPEN | HALF_OPEN.

Record CircuitBreaker : Type := mkCircuitBreaker {
  failure_threshold : Z;
  recovery_timeout : Z;
  half_open_calls : Z;
  state : CircuitState;
  failure_count : Z;
  last_failure_time : Z;
  half_open_successes : Z
}.

(** [CircuitBreaker.__init__] *)
Definition new (failure_threshold recovery_timeout half_open_calls : Z)
  : CircuitBreaker :=
  mkCircuitBreaker failure_threshold recovery_timeout half_open_calls
                   CLOSED 0 0 0.

Definition set_state (st : CircuitState) (self : CircuitBreaker) :=
  mkCircuitBreaker (failure_threshold self) (recovery_timeout self)
    (half_open_calls self) st (failure_count self)
    (last_failure_time self) (half_open_successes self).

Definition set_failure_count (n : Z) (self : CircuitBreaker) :=
  mkCircuitBreaker (failure_threshold self) (recovery_timeout self)
    (half_open_calls self) (state self) n
    (last_failure_time self) (half_open_successes self).

Definition set_last_failure_time (t : Z) (self : CircuitBreaker) :=
  mkCircuitBreaker (failure_threshold self) (recovery_timeout self)
    (half_open_calls self) (state self) (failure_count self)
    t (half_open_successes self).

Definition set_half_open_successes (n : Z) (self : CircuitBreaker) :=
  mkCircuitBreaker (failure_threshold self) (recovery_timeout self)
    (half_open_calls self) (state self) (failure_count self)
    (last_failure_time self) n.

(** [CircuitBreaker.reset] *)
Definition reset (self : CircuitBreaker) : CircuitBreaker :=
  set_half_open_successes 0 (set_failure_count 0 (set_state CLOSED self)).

(** [CircuitBreaker._handle_failure]; [now] is its [time.time()]. *)
Definition _handle_failure (now : Z) (self : CircuitBreaker) : CircuitBreaker :=
  let self := set_last_failure_time now self in
  match state self with
  | HALF_OPEN => set_state OPEN self
  | CLOSED =>
      let self := set_failure_count (failure_count self + 1) self in
      if failure_threshold self <=? failure_count self
      then set_state OPEN self
      else self
  | OPEN => self
  end.

Definition unavailable : string :=
  "Service is currently unavailable. Please try again later.".

(** Lines 35-46 of [execute]: the check made before the call. *)
Definition before_call (now : Z) (self : CircuitBreaker)
  : result unit * CircuitBreaker :=
  match state self with
  | OPEN =>
      let time_since_failure := now - last_failure_time self in
      if recovery_timeout self <? time_since_failure
      then (Ok tt, set_half_open_successes 0 (set_state HALF_OPEN self))
      else (Raise (CircuitOpenError unavailable), self)
  | _ => (Ok tt, self)
  end.

(** Lines 52-58 of [execute]: bookkeeping after the call returned. *)
Definition after_success (self : CircuitBreaker) : CircuitBreaker :=
  match state self with
  | HALF_OPEN =>
      let self := set_half_open_successes (half_open_successes self + 1) self in
      if half_open_calls self <=? half_open_successes self
      then reset self
      else self
  | _ => self
  end.

(** [CircuitBreaker.execute(func)].  The breaker and the world are the
    state; [func] works on the world only. *)
Definition execute {W A} (clock : W -> Z) (func : M W A)
  : M (CircuitBreaker * W) A :=
  fun '(self, w) =>
    match before_call (clock w) self with
    | (Raise e, self) => (Raise e, (self, w))
    | (Ok _, self) =>
        match func w with
        | (Ok result, w') => (Ok result, (after_success self, w'))
        | (Raise e, w') => (Raise e, (_handle_failure (clock w') self, w'))
        end
    end.

(** A caller that makes the calls [fs] one after the other, keeping each
    outcome and going on after a raise. *)
Fixpoint execute_all {W A} (clock : W -> Z) (fs : list (M W A))
    (s : CircuitBreaker * W) : list (result A) * (CircuitBreaker * W) :=
  match fs with
  | [] => ([], s)
  | f :: rest =>
      let '(r, s1) := execute clock f s in
      let '(rs, s2) := execute_all clock rest s1 in
      (r :: rs, s2)
  end.

(** An operation instrumented with a call count, as a mock's
    [call_count]: every invocation adds one. *)
Definition counted {W A} (f : M W A) : M (nat * W) A :=
  fun '(n, w) => let '(r, w') := f w in (r, (S n, w')).

(** How many of the outcomes are raises. *)
Definition failures {A} (rs : list (result A)) : Z :=
  Z.of_nat (List.length (List.filter is_raise rs)).

End Breaker.

(** ** The HTTP services behind the gateways *)

(** An entry of the catalogue returned by [GET /products/]:
    [{id, name, price, category}].  A price is a Python [float], as the
    schemas declare it ([price: float], [total_price: float]): an IEEE 754
    double, with Python's [+] the rounding addition [PrimFloat.add].  A
    price sent as a JSON integer is the double of the same value. *)
Module Product.
Record t : Type := mk {
  id : Z;
  name : string;
  price : float;
  category : string
}.
End Product.

(** The rational number that a finite double is (the infinities and NaN
    are given 0; no sum below is one of them). *)
Definition exact (x : float) : Q :=
  match Prim2SF x with
  | S754_finite s m e =>
      let n := if s then Z.neg m else Z.pos m in
      if 0 <=? e then inject_Z (n * 2 ^ e) else Qmake n (Z.to_pos (2 ^ (- e)))
  | _ => 0%Q
  end.


(** A Python [dict] with string keys, in insertion order. *)
Definition dict (V : Type) : Type := list (string * V).

Fixpoint dict_get {V} (d : dict V) (k : string) : option V :=
  match d with
  | [] => None
  | (k', v) :: rest => if String.eqb k' k then Some v else dict_get rest k
  end.

(** The dict without the key [k]. *)
Fixpoint dict_remove {V} (k : string) (d : dict V) : dict V :=
  match d with
  | [] => []
  | (k', v) :: rest =>
      if String.eqb k' k then dict_remove k rest else (k', v) :: dict_remove k rest
  end.

(** truthiness of a dict: non-empty *)
Definition truthy_dict {V} (d : dict V) : bool :=
  match d with [] => false | _ :: _ => true end.

(** The user record returned by [GET /users/cpf/{cpf}]; the fields read by
    the service ([username], [email]) are strings. *)
Definition User : Type := dict string.

(** An [httpx.Response]: [json] is what [response.json()] gives (for a
    user, [None] is a JSON [null]). *)
Record Response (B : Type) : Type := mkResponse {
  status_code : Z;
  text : string;
  json : result B
}.
Arguments mkResponse {B}.
Arguments status_code {B}.
Arguments text {B}.
Arguments json {B}.

(** [response.raise_for_status()]: anything outside 2xx raises. *)
Definition raise_for_status {B} (response : Response B) : result unit :=
  if (200 <=? status_code response) && (status_code response <=? 299)
  then Ok tt
  else Raise (HTTPStatusError (status_code response) (text response)).

(** The world of the infrastructure layer: the clock read by [time.time()]
    (clock readings and the recovery timeout are numbers of one unit), and
    the two remote services.  A service is given by what the n-th request
    to it meets: a response, or an exception of the HTTP client. *)
Record World : Type := mkWorld {
  clock : Z;
  products_service : nat -> result (Response (list Product.t));
  products_requests : nat;
  users_service : string -> nat -> result (Response (option User));
  users_requests : nat
}.

Definition lift {S A} (r : result A) : M S A := fun s => (r, s).

(** [await client.get(f"{base_url}/products/")] *)
Definition client_get_products : M World (Response (list Product.t)) :=
  fun w =>
    (products_service w (products_requests w),
     mkWorld (clock w) (products_service w) (S (products_requests w))
             (users_service w) (users_requests w)).

(** [await client.get(f"{base_url}/users/cpf/{cpf}")] *)
Definition client_get_user (cpf : string) : M World (Response (option User)) :=
  fun w =>
    (users_service w cpf (users_requests w),
     mkWorld (clock w) (products_service w) (products_requests w)
             (users_service w) (S (users_requests w))).

(** ** tech/infra/gateways/http_product_gateway.py *)

Module HttpProductGateway.

Record t : Type := mk { base_url : string }.

Definition not_found (product_id : Z) : string :=
  "Product with ID " ++ str_int product_id ++ " not found".

(** The inner [for product in all_products] loop: the first entry with
    the requested id. *)
Definition lookup (all_products : list Product.t) (product_id : Z)
  : option Product.t :=
  List.find (fun product => Product.id product =? product_id) all_products.

(** The [for product_id in product_ids] loop of [get_products]. *)
Fixpoint collect (all_products : list Product.t) (product_ids : list Z)
  : result (list Product.t) :=
  match product_ids with
  | [] => Ok []
  | product_id :: rest =>
      match lookup all_products product_id with
      | None => Raise (ValueError (not_found product_id))
      | Some product =>
          match collect all_products rest with
          | Ok products => Ok (product :: products)
          | Raise e => Raise e
          end
      end
  end.

(** The first requested id that [all_products] has no entry for. *)
Definition first_missing (all_products : list Product.t) (product_ids : list Z)
  : option Z :=
  List.find (fun product_id =>
               match lookup all_products product_id with
               | None => true
               | Some _ => false
               end) product_ids.

(** The [except] clauses, shared by both methods up to the method name. *)
Definition handlers (self : t) (e : exn) : exn :=
  match e with
  | HTTPStatusError code body =>
      ValueError ("Error fetching products: " ++ str_int code ++ ": " ++ body)
  | ConnectError _ =>
      ValueError ("Cannot connect to products service at " ++ base_url self
                  ++ ". Is it running?")
  | TimeoutException _ => ValueError "Request to products service timed out"
  | e => ValueError ("Failed to communicate with products service: " ++ str_exn e)
  end.

Definition get_product (self : t) (product_id : Z) : M World Product.t :=
  try_except
    (response <- client_get_products ;;
     lift (raise_for_status response) ;;;
     all_products <- lift (json response) ;;
     match lookup all_products product_id with
     | Some product => ret product
     | None => raise (ValueError (not_found product_id))
     end)%py
    (fun e => raise (handlers self e)).

Definition get_products (self : t) (product_ids : list Z)
  : M World (list Product.t) :=
  try_except
    (response <- client_get_products ;;
     lift (raise_for_status response) ;;;
     all_products <- lift (json response) ;;
     lift (collect all_products product_ids))%py
    (fun e => raise (handlers self e)).

End HttpProductGateway.

(** ** tech/infra/gateways/circuit_breaker_product_gateway.py *)

Module CircuitBreakerProductGateway.
Import Breaker.

(** The breaker is the class attribute [_circuit_breaker], one for all
    instances: it is part of the state, next to the world. *)
Record t : Type := mk { http_gateway : HttpProductGateway.t }.

Definition product_unavailable : string :=
  "Product service is currently unavailable. Please try again later.".

Definition on_error {A} (e : exn) : M (CircuitBreaker * World) A :=
  match e with
  | CircuitOpenError _ => raise (ValueError product_unavailable)
  | e => raise e
  end.

Definition get_product (self : t) (product_id : Z)
  : M (CircuitBreaker * World) Product.t :=
  try_except
    (execute clock (HttpProductGateway.get_product (http_gateway self) product_id))
    on_error.

Definition get_products (self : t) (product_ids : list Z)
  : M (CircuitBreaker * World) (list Product.t) :=
  try_except
    (execute clock (HttpProductGateway.get_products (http_gateway self) product_ids))
    on_error.

End CircuitBreakerProductGateway.

(** ** tech/infra/gateways/http_user_gateway.py *)

Module HttpUserGateway.

Record t : Type := mk { base_url : string }.

Definition handlers (self : t) (cpf : string) (e : exn) : exn :=
  match e with
  | HTTPStatusError code body =>
      ValueError ("Error fetching user with CPF " ++ cpf ++ ": "
                  ++ str_int code ++ ": " ++ body)
  | ConnectError _ =>
      ValueError ("Cannot connect to users service at " ++ base_url self
                  ++ ". Is it running?")
  | TimeoutException _ => ValueError "Request to users service timed out"
  | e => ValueError ("Failed to communicate with users service: " ++ str_exn e)
  end.

Definition get_user_by_cpf (self : t) (cpf : string) : M World (option User) :=
  try_except
    (response <- client_get_user cpf ;;
     if status_code response =? 404 then ret None
     else
       (lift (raise_for_status response) ;;;
        user_data <- lift (json response) ;;
        ret user_data))%py
    (fun e => raise (handlers self cpf e)).

End HttpUserGateway.

(** ** tech/infra/gateways/circuit_breaker_user_gateway.py *)

Module CircuitBreakerUserGateway.
Import Breaker.

Record t : Type := mk { http_gateway : HttpUserGateway.t }.

Definition get_user_by_cpf (self : t) (cpf : string)
  : M (CircuitBreaker * World) (option User) :=
  try_except
    (execute clock (HttpUserGateway.get_user_by_cpf (http_gateway self) cpf))
    (fun e =>
       match e with
       | CircuitOpenError _ => ret None
       | _ => ret None
       end).

End CircuitBreakerUserGateway.

(** ** tech/domain/entities/orders.py *)

Module OrderStatus.
Inductive t : Type :=
| RECEIVED | PREPARING | READY | FINISHED
| AWAITING_PAYMENT | PAID | PAYMENT_FAILED | PAYMENT_ERROR.

Definition value (st : t) : string :=
  match st with
  | RECEIVED => "RECEIVED"
  | PREPARING => "PREPARING"
  | READY => "READY"
  | FINISHED => "FINISHED"
  | AWAITING_PAYMENT => "AWAITING_PAYMENT"
  | PAID => "PAID"
  | PAYMENT_FAILED => "PAYMENT_FAILED"
  | PAYMENT_ERROR => "PAYMENT_ERROR"
  end.
End OrderStatus.

Module Order.
(** Timestamps are clock readings. *)
Record t : Type := mk {
  id : option Z;
  total_price : float;
  product_ids : string;
  status : OrderStatus.t;
  created_at : Z;
  updated_at : Z;
  user_name : option string;
  user_email : option string;
  user_cpf : option string
}.

(** [order.status = st] *)
Definition set_status (st : OrderStatus.t) (order : t) : t :=
  mk (id order) (total_price order) (product_ids order) st
     (created_at order) (updated_at order)
     (user_name order) (user_email order) (user_cpf order).
End Order.

(** ** tech/interfaces/schemas/order_schema.py *)

Module OrderCreate.
Record t : Type := mk {
  product_ids : list Z;
  cpf : option string
}.
End OrderCreate.

Module ProductDetail.
Record t : Type := mk {
  id : Z;
  name : string;
  price : float
}.

(** [{"id": product["id"], "name": product["name"], "price": product["price"]}] *)
Definition of_product (product : Product.t) : t :=
  mk (Product.id product) (Product.name product) (Product.price product).

(** [{"id": pid, "name": "Unknown", "price": 0}] *)
Definition unknown (pid : Z) : t := mk pid "Unknown" 0%float.
End ProductDetail.

Module OrderPublic.
Record t : Type := mk {
  id : Z;
  total_price : float;
  status : OrderStatus.t;
  products : list ProductDetail.t;
  user_info : option (dict (option string))
}.

(** [OrderPublic(id=..., ...)]: the field [id: int] refuses [None] with a
    pydantic [ValidationError], which is a [ValueError]. *)
Definition new (id : option Z) (total_price : float) (status : OrderStatus.t)
    (products : list ProductDetail.t) : result t :=
  match id with
  | Some i => Ok (mk i total_price status products None)
  | None => Raise (ValueError "1 validation error for OrderPublic")
  end.

(** [response.user_info = info] *)
Definition set_user_info (info : dict (option string)) (r : t) : t :=
  mk (id r) (total_price r) (status r) (products r) (Some info).
End OrderPublic.

(** ** The interfaces the use cases are built on *)

(** Modelled from the spec: the order store
    ([tech.interfaces.repositories.order_repository] is not among the
    sources), with the methods the use cases call: save, find by id, list
    a page, update. *)
Module OrderRepository.
Record t (S : Type) : Type := mk {
  add : Order.t -> M S Order.t;
  get_by_id : Z -> M S (option Order.t);
  list_orders : Z -> Z -> M S (list Order.t);
  update : Order.t -> M S Order.t
}.
Arguments mk {S}.
Arguments add {S}.
Arguments get_by_id {S}.
Arguments list_orders {S}.
Arguments update {S}.
End OrderRepository.

(** tech/interfaces/gateways/product_gateway.py *)
Module ProductGateway.
Record t (S : Type) : Type := mk {
  get_product : Z -> M S Product.t;
  get_products : list Z -> M S (list Product.t)
}.
Arguments mk {S}.
Arguments get_product {S}.
Arguments get_products {S}.
End ProductGateway.

(** tech/interfaces/gateways/user_gateway.py *)
Module UserGateway.
Record t (S : Type) : Type := mk {
  get_user_by_cpf : string -> M S (option User)
}.
Arguments mk {S}.
Arguments get_user_by_cpf {S}.
End UserGateway.

(** The payment request put on the queue:
    [{"order_id", "amount", "customer_info": {"name", "email", "cpf"}}]. *)
Module PaymentRequest.
Record customer : Type := mkCustomer {
  name : option string;
  email : option string;
  cpf : option string
}.
Record t : Type := mk {
  order_id : option Z;
  amount : float;
  customer_info : customer
}.
End PaymentRequest.

(** tech/interfaces/message_broker.py *)
Module MessageBroker.
Record t (S : Type) : Type := mk {
  publish : string -> PaymentRequest.t -> M S unit
}.
Arguments mk {S}.
Arguments publish {S}.
End MessageBroker.

(** The two product gateways and the two user gateways implement the
    interfaces. *)
Definition http_product_gateway (self : HttpProductGateway.t)
  : ProductGateway.t World :=
  ProductGateway.mk (HttpProductGateway.get_product self)
                    (HttpProductGateway.get_products self).

Definition circuit_breaker_product_gateway (self : CircuitBreakerProductGateway.t)
  : ProductGateway.t (Breaker.CircuitBreaker * World) :=
  ProductGateway.mk (CircuitBreakerProductGateway.get_product self)
                    (CircuitBreakerProductGateway.get_products self).

Definition http_user_gateway (self : HttpUserGateway.t) : UserGateway.t World :=
  UserGateway.mk (HttpUserGateway.get_user_by_cpf self).

Definition circuit_breaker_user_gateway (self : CircuitBreakerUserGateway.t)
  : UserGateway.t (Breaker.CircuitBreaker * World) :=
  UserGateway.mk (CircuitBreakerUserGateway.get_user_by_cpf self).

(** [try: c  except ValueError as e: h (str e)]: the handler takes
    [ValueError] and its subclasses, other exceptions pass. *)
Definition try_except_ValueError {S A} (c : M S A) (h : string -> M S A) : M S A :=
  try_except c (fun e => if is_ValueError e then h (str_exn e) else raise e).

(** ** tech/use_cases/orders/create_order_use_case.py *)

Module CreateOrderUseCase.
Section WithDependencies.
Context {S : Type}.
Variable order_repository : OrderRepository.t S.
Variable product_gateway : ProductGateway.t S.
Variable user_gateway : UserGateway.t S.
(** [datetime.now()], read by [Order.__init__] *)
Variable datetime_now : M S Z.

(** What the customer lookup leaves in
    [(user_info, user_name, user_email)]. *)
Definition no_user
  : option (dict (option string)) * option string * option string :=
  (None, None, None).

Definition lookup_user (cpf : option string)
  : M S (option (dict (option string)) * option string * option string) :=
  match cpf with
  | Some c =>
      if truthy_str c then
        try_except_ValueError
          (user <- UserGateway.get_user_by_cpf user_gateway c ;;
           match user with
           | Some u =>
               if truthy_dict u
               then ret (Some [("name", dict_get u "username");
                               ("email", dict_get u "email")],
                         dict_get u "username", dict_get u "email")
               else ret no_user
           | None => ret no_user
           end)%py
          (fun _ => ret no_user)
      else ret no_user
  | None => ret no_user
  end.

Definition execute (order_data : OrderCreate.t) : M S OrderPublic.t :=
  (products <-
     ProductGateway.get_products product_gateway
       (OrderCreate.product_ids order_data) ;;
   (* total_price = 0; for product in products: total_price += product["price"] *)
   let total_price :=
     List.fold_left (fun total product => PrimFloat.add total (Product.price product))
                    products 0%float in
   let product_details := List.map ProductDetail.of_product products in
   found <- lookup_user (OrderCreate.cpf order_data) ;;
   let '(user_info, user_name, user_email) := found in
   created_at <- datetime_now ;;
   updated_at <- datetime_now ;;
   let order :=
     Order.mk None total_price
              (join "," (List.map str_int (OrderCreate.product_ids order_data)))
              OrderStatus.RECEIVED created_at updated_at
              user_name user_email None in
   saved_order <- OrderRepository.add order_repository order ;;
   response <-
     lift (OrderPublic.new (Order.id saved_order)
                           (Order.total_price saved_order)
                           (Order.status saved_order)
                           product_details) ;;
   match user_info with
   | Some info =>
       if truthy_dict info
       then ret (OrderPublic.set_user_info info response)
       else ret response
   | None => ret response
   end)%py.

End WithDependencies.
End CreateOrderUseCase.

(** The part the three reads have in common: the product ids of a stored
    order and their details.  [int] is Python's builtin on [str] (it raises
    [ValueError] on what it does not accept). *)
Module ProductIds.
Section WithInt.
Variable int : string -> result Z.

(** [list(map(int, order.product_ids.split(','))) if order.product_ids else []] *)
Definition parse (product_ids : string) : result (list Z) :=
  if truthy_str product_ids
  then map_result int (split_comma product_ids)
  else Ok [].
End WithInt.

Definition nonempty (product_ids : list Z) : bool :=
  match product_ids with [] => false | _ :: _ => true end.

(** [[{"id": pid, "name": "Unknown", "price": 0} for pid in product_ids]] *)
Definition placeholders (product_ids : list Z) : list ProductDetail.t :=
  List.map ProductDetail.unknown product_ids.
End ProductIds.

(** ** tech/use_cases/orders/list_orders_use_case.py *)

Module ListOrdersUseCase.
Section WithDependencies.
Context {S : Type}.
Variable order_repository : OrderRepository.t S.
Variable product_gateway : ProductGateway.t S.
Variable int : string -> result Z.

Definition product_details (product_ids : list Z) : M S (list ProductDetail.t) :=
  if ProductIds.nonempty product_ids then
    try_except_ValueError
      (products <- ProductGateway.get_products product_gateway product_ids ;;
       ret (List.map ProductDetail.of_product products))%py
      (fun _ => ret (ProductIds.placeholders product_ids))
  else ret [].

Definition user_info (order : Order.t) : dict (option string) :=
  ((if truthy_opt_str (Order.user_name order)
    then [("name", Order.user_name order)] else [])
   ++
   (if truthy_opt_str (Order.user_email order)
    then [("email", Order.user_email order)] else []))%list.

(** The body of [for order in orders]. *)
Definition order_response (order : Order.t) : M S OrderPublic.t :=
  (product_ids <- lift (ProductIds.parse int (Order.product_ids order)) ;;
   details <- product_details product_ids ;;
   response <-
     lift (OrderPublic.new (Order.id order) (Order.total_price order)
                           (Order.status order) details) ;;
   if truthy_dict (user_info order)
   then ret (OrderPublic.set_user_info (user_info order) response)
   else ret response)%py.

Fixpoint for_each (orders : list Order.t) : M S (list OrderPublic.t) :=
  match orders with
  | [] => ret []
  | order :: rest =>
      (response <- order_response order ;;
       order_list <- for_each rest ;;
       ret (response :: order_list))%py
  end.

Definition execute (limit skip : Z) : M S (list OrderPublic.t) :=
  (orders <- OrderRepository.list_orders order_repository limit skip ;;
   for_each orders)%py.

End WithDependencies.
End ListOrdersUseCase.

(** ** tech/use_cases/orders/update_order_status_use_case.py *)

Module UpdateOrderStatusUseCase.
Section WithDependencies.
Context {S : Type}.
Variable order_repository : OrderRepository.t S.
Variable product_gateway : ProductGateway.t S.
Variable int : string -> result Z.

Definition user_info (order : Order.t) : dict (option string) :=
  ((match Order.user_name order with
    | Some _ => [("name", Order.user_name order)]
    | None => []
    end)
   ++
   (match Order.user_email order with
    | Some _ => [("email", Order.user_email order)]
    | None => []
    end))%list.

Definition execute (order_id : Z) (status : OrderStatus.t) : M S OrderPublic.t :=
  (let new_status := status in
   db_order <- OrderRepository.get_by_id order_repository order_id ;;
   match db_order with
   | None => raise (ValueError "Order not found")
   | Some db_order =>
       updated_order <-
         OrderRepository.update order_repository
           (Order.set_status new_status db_order) ;;
       product_ids <-
         lift (ProductIds.parse int (Order.product_ids updated_order)) ;;
       details <-
         ListOrdersUseCase.product_details product_gateway product_ids ;;
       response <-
         lift (OrderPublic.new (Order.id updated_order)
                               (Order.total_price updated_order)
                               (Order.status updated_order) details) ;;
       if truthy_dict (user_info updated_order)
       then ret (OrderPublic.set_user_info (user_info updated_order) response)
       else ret response
   end)%py.

End WithDependencies.
End UpdateOrderStatusUseCase.

(** ** tech/use_cases/orders/request_payment_use_case.py *)

Module RequestPaymentUseCase.
Section WithDependencies.
Context {S : Type}.
Variable order_repository : OrderRepository.t S.
Variable message_broker : MessageBroker.t S.

Definition payment_request (order : Order.t) : PaymentRequest.t :=
  PaymentRequest.mk (Order.id order) (Order.total_price order)
    (PaymentRequest.mkCustomer (Order.user_name order)
                               (Order.user_email order)
                               (Order.user_cpf order)).

Definition execute (order_id : Z) : M S Order.t :=
  (order <- OrderRepository.get_by_id order_repository order_id ;;
   match order with
   | None =>
       raise (ValueError ("Order with ID " ++ str_int order_id ++ " not found"))
   | Some order =>
       try_except
         (MessageBroker.publish message_broker "payment_requests"
                                (payment_request order) ;;;
          let order := Order.set_status OrderStatus.AWAITING_PAYMENT order in
          updated_order <- OrderRepository.update order_repository order ;;
          ret updated_order)
         (fun e =>
            raise (ValueError ("Erro ao publicar mensagem de pagamento: "
                               ++ str_exn e)))
   end)%py.

End WithDependencies.
End RequestPaymentUseCase.

(** ** tech/interfaces/controllers/order_controller.py: [get_order] *)

Module OrderController.

(** The response dict of [get_order]. *)
Record response : Type := mkResponse {
  id : option Z;
  total_price : float;
  status : string;
  products : list ProductDetail.t;
  created_at : option Z;
  updated_at : option Z;
  user_info : option (dict (option string))
}.

Section WithDependencies.
Context {S : Type}.
Variable order_repository : OrderRepository.t S.
Variable product_gateway : ProductGateway.t S.
Variable int : string -> result Z.

(** Here the inner handler is [except Exception]. *)
Definition product_details (product_ids : list Z) : M S (list ProductDetail.t) :=
  if ProductIds.nonempty product_ids then
    try_except
      (products <- ProductGateway.get_products product_gateway product_ids ;;
       ret (List.map ProductDetail.of_product products))%py
      (fun _ => ret (ProductIds.placeholders product_ids))
  else ret [].

Definition user_info_of (order : Order.t) : option (dict (option string)) :=
  if truthy_opt_str (Order.user_name order) then
    Some ([("name", Order.user_name order)]
          ++ (if truthy_opt_str (Order.user_email order)
              then [("email", Order.user_email order)] else []))%list
  else None.

Definition get_order (order_id : Z) : M S response :=
  try_except
    (order <- OrderRepository.get_by_id order_repository order_id ;;
     match order with
     | None =>
         raise (ValueError ("Order with ID " ++ str_int order_id ++ " not found"))
     | Some order =>
         product_ids <- lift (ProductIds.parse int (Order.product_ids order)) ;;
         details <- product_details product_ids ;;
         ret (mkResponse (Order.id order) (Order.total_price order)
                         (OrderStatus.value (Order.status order)) details
                         (Some (Order.created_at order))
                         (Some (Order.updated_at order))
                         (user_info_of order))
     end)%py
    (fun e => raise (ValueError ("Error retrieving order: " ++ str_exn e))).

End WithDependencies.
End OrderController.

(** ** tech/workers/run_payment_response_worker.py *)

(** What [json.loads] produces. *)
Module Json.
#[warnings="-register-all"] Inductive value : Type :=
| Null
| Bool (b : bool)
| Int (z : Z)
| Float (q : Q)
| Str (s : string)
| List (items : list value)
| Dict (d : list (string * value)).

(** [bool(v)] *)
Definition truthy (v : value) : bool :=
  match v with
  | Null => false
  | Bool b => b
  | Int z => negb (z =? 0)
  | Float q => negb (Qeq_bool q 0)
  | Str s => truthy_str s
  | List items => match items with [] => false | _ :: _ => true end
  | Dict d => match d with [] => false | _ :: _ => true end
  end.

(** [message.get(key)]: only a dict has [get]; a missing key gives [None]. *)
Definition get (message : value) (key : string) : result value :=
  match message with
  | Dict d => match dict_get d key with
              | Some v => Ok v
              | None => Ok Null
              end
  | _ => Raise (AttributeError "object has no attribute 'get'")
  end.
End Json.

Module Worker.

(** The message body, a [bytes], as [json.loads] sees it: bytes that do
    not decode as text in the encoding it detects (UTF-8, UTF-16 or
    UTF-32), text that is not JSON, or a JSON document. *)
Inductive body : Type :=
| NotText (raw : string)
| NotJson (raw : string)
| Json (message : Json.value).

(** [json.loads(body)]: the bytes are decoded first, which raises
    [UnicodeDecodeError]; the text is parsed next, which raises
    [json.JSONDecodeError]. *)
Definition json_loads (b : body) : result Json.value :=
  match b with
  | Json message => Ok message
  | NotJson raw => Raise (JSONDecodeError raw)
  | NotText raw =>
      Raise (UnicodeDecodeError ("codec can't decode bytes: " ++ raw))
  end.

(** What the worker does to the outside, in order: the PUT on the order
    service, and the acknowledgements on the channel. *)
Inductive event : Type :=
| Put (order_service_url : string) (order_id : Json.value) (status : string)
| Ack (delivery_tag : Z)
| Nack (delivery_tag : Z) (requeue : bool).

(** The [requests.Response] of the PUT. *)
Record put_response : Type := mkPutResponse {
  put_status_code : Z;
  put_text : string;
  put_json : result Json.value
}.

(** The dict returned by [update_order_status], one constructor per
    [return]. *)
Inductive update_result : Type :=
| Unmapped
| Updated (order : Json.value)
| Refused (status_code : Z) (message : string)
| ConnectionError (message : string)
| Failed (message : string).

Definition status_map : dict string :=
  [("APPROVED", "PAID");
   ("PENDING", "AWAITING_PAYMENT");
   ("REJECTED", "PAYMENT_FAILED");
   ("ERROR", "PAYMENT_ERROR")].

Section WithOrderService.
(** The order service behind [requests.put], given what happened so far. *)
Variable requests_put :
  list event -> string -> Json.value -> string -> result put_response.

Record OrderUpdateService : Type := mkOrderUpdateService {
  order_service_url : string
}.

(** [status_map.get(payment_status)]: a list or a dict is not hashable. *)
Definition _map_payment_status_to_order_status (payment_status : Json.value)
  : result (option string) :=
  match payment_status with
  | Json.Str s => Ok (dict_get status_map s)
  | Json.List _ | Json.Dict _ => Raise (TypeError "unhashable type")
  | _ => Ok None
  end.

Definition put (self : OrderUpdateService) (order_id : Json.value)
    (order_status : string) : M (list event) put_response :=
  fun log =>
    (requests_put log (order_service_url self) order_id order_status,
     (log ++ [Put (order_service_url self) order_id order_status])%list).

Definition update_order_status (self : OrderUpdateService)
    (order_id payment_status : Json.value) : M (list event) update_result :=
  try_except
    (order_status <- lift (_map_payment_status_to_order_status payment_status) ;;
     match order_status with
     | None => ret Unmapped
     | Some order_status =>
         if truthy_str order_status then
           response <- put self order_id order_status ;;
           if (put_status_code response =? 200)
              || (put_status_code response =? 201)
              || (put_status_code response =? 202)
           then order <- lift (put_json response) ;; ret (Updated order)
           else ret (Refused (put_status_code response) (put_text response))
         else ret Unmapped
     end)%py
    (fun e =>
       match e with
       | RequestException msg => ret (ConnectionError msg)
       | _ => ret (Failed (str_exn e))
       end).

Definition basic_ack (delivery_tag : Z) : M (list event) unit :=
  fun log => (Ok tt, (log ++ [Ack delivery_tag])%list).

Definition basic_nack (delivery_tag : Z) (requeue : bool) : M (list event) unit :=
  fun log => (Ok tt, (log ++ [Nack delivery_tag requeue])%list).

(** [callback(ch, method, properties, body, order_service)]; of [method]
    only the delivery tag is used. *)
Definition callback (delivery_tag : Z) (b : body)
    (order_service : OrderUpdateService) : M (list event) unit :=
  try_except
    (message <- lift (json_loads b) ;;
     order_id <- lift (Json.get message "order_id") ;;
     status <- lift (Json.get message "status") ;;
     if negb (Json.truthy order_id) || negb (Json.truthy status)
     then basic_ack delivery_tag
     else
       (update_order_status order_service order_id status ;;;
        basic_ack delivery_tag))%py
    (fun e =>
       match e with
       | JSONDecodeError _ => basic_ack delivery_tag
       | _ => basic_nack delivery_tag false
       end).

End WithOrderService.
End Worker.

(** ** Recording collaborators

    The use cases receive their collaborators through the constructor.
    To observe which calls a use case makes, in which order and with which
    arguments, the collaborators below keep a log of the calls made so far
    (as the mocks of the unit tests do) and answer each call as a script
    prescribes; the answer may depend on everything that happened before,
    so every deterministic collaborator is some script. *)

Module Mock.

Inductive call : Type :=
| GetProduct (product_id : Z)
| GetProducts (product_ids : list Z)
| GetUserByCpf (cpf : string)
| Add (order : Order.t)
| GetById (order_id : Z)
| ListOrders (limit skip : Z)
| Update (order : Order.t)
| Publish (queue : string) (message : PaymentRequest.t).

Record script : Type := mkScript {
  on_get_product : list call -> Z -> result Product.t;
  on_get_products : list call -> list Z -> result (list Product.t);
  on_get_user_by_cpf : list call -> string -> result (option User);
  on_add : list call -> Order.t -> result Order.t;
  on_get_by_id : list call -> Z -> result (option Order.t);
  on_list_orders : list call -> Z -> Z -> result (list Order.t);
  on_update : list call -> Order.t -> result Order.t;
  on_publish : list call -> string -> PaymentRequest.t -> result unit;
  on_now : list call -> Z
}.

Definition recorded {A} (c : call) (answer : list call -> result A)
  : M (list call) A :=
  fun log => (answer log, (log ++ [c])%list).

Definition order_repository (sc : script) : OrderRepository.t (list call) :=
  OrderRepository.mk
    (fun order => recorded (Add order) (fun log => on_add sc log order))
    (fun order_id => recorded (GetById order_id)
                              (fun log => on_get_by_id sc log order_id))
    (fun limit skip => recorded (ListOrders limit skip)
                                (fun log => on_list_orders sc log limit skip))
    (fun order => recorded (Update order) (fun log => on_update sc log order)).

Definition product_gateway (sc : script) : ProductGateway.t (list call) :=
  ProductGateway.mk
    (fun product_id => recorded (GetProduct product_id)
                                (fun log => on_get_product sc log product_id))
    (fun product_ids => recorded (GetProducts product_ids)
                                 (fun log => on_get_products sc log product_ids)).

Definition user_gateway (sc : script) : UserGateway.t (list call) :=
  UserGateway.mk
    (fun cpf => recorded (GetUserByCpf cpf)
                         (fun log => on_get_user_by_cpf sc log cpf)).

Definition message_broker (sc : script) : MessageBroker.t (list call) :=
  MessageBroker.mk
    (fun queue message => recorded (Publish queue message)
                                   (fun log => on_publish sc log queue message)).

Definition datetime_now (sc : script) : M (list call) Z :=
  fun log => (Ok (on_now sc log), log).

End Mock.


(** The product gateway is down: whatever is asked, in whatever state, it
    raises [ValueError]. *)
Definition gateway_down {S} (product_gateway : ProductGateway.t S) : Prop :=
  forall product_ids s,
  exists msg s',
    ProductGateway.get_products product_gateway product_ids s
      = (Raise (ValueError msg), s').

(** The contract written in the [ProductGateway] interface: what
    [get_products] raises is a [ValueError]. *)
Definition raises_ValueError_only {S} (product_gateway : ProductGateway.t S) : Prop :=
  forall product_ids s e s',
    ProductGateway.get_products product_gateway product_ids s = (Raise e, s') ->
    exists msg, e = ValueError msg.

(** A stored order: it has an id and its product ids parse. *)
Definition readable (int : string -> result Z) (order : Order.t) : Prop :=
  exists i ids,
    Order.id order = Some i /\
    ProductIds.parse int (Order.product_ids order) = Ok ids.

(** The response lists a placeholder for every product id of the order. *)
Definition degraded (int : string -> result Z) (order : Order.t)
    (r : OrderPublic.t) : Prop :=
  exists ids,
    ProductIds.parse int (Order.product_ids order) = Ok ids /\
    OrderPublic.products r = ProductIds.placeholders ids /\
    OrderPublic.status r = Order.status order /\
    OrderPublic.total_price r = Order.total_price order.

(** ** Sample data *)

Module Samples.
Import Breaker.

(** Two operations on a world that is just the clock reading. *)
Definition returns_7 : M Z Z := fun t => (Ok 7, t + 1).
Definition raises_boom : M Z Z := fun t => (Raise (OtherException "boom"), t + 1).
Definition wall (t : Z) : Z := t.

(** A breaker opened by three failures, the last at time 100. *)
Definition tripped : CircuitBreaker := mkCircuitBreaker 3 30 1 OPEN 3 100 0.

(** [int] on the decimal strings that [str] produces. *)
Definition decimal_int (s : string) : result Z :=
  match NilZero.int_of_string s with
  | Some d => Ok (Z.of_int d)
  | None => Raise (ValueError ("invalid literal for int() with base 10: " ++ s))
  end.

Definition coffee : Product.t := Product.mk 1 "coffee" 10 "drinks".
Definition cake : Product.t := Product.mk 2 "cake" 20 "food".

(** A products service that always answers 200 with coffee and cake, and
    a users service that cannot be reached. *)
Definition world : World :=
  mkWorld 0
          (fun _ => Ok (mkResponse 200 "" (Ok [coffee; cake]))) 0
          (fun _ _ => Raise (ConnectError "connection refused")) 0.

Definition http_products : HttpProductGateway.t :=
  HttpProductGateway.mk "http://localhost:8002".

Definition stored (product_ids : string) : Order.t :=
  Order.mk (Some 1) 100 product_ids OrderStatus.RECEIVED 0 0
           (Some "Test User") (Some "test@example.com") (Some "12345678901").

(** Collaborators: the catalogue is down, the store holds [stored "5,6"]
    under every id and saves what it is given under id 1, the customer
    service is unreachable, publishing fails. *)
Definition outage : Mock.script :=
  Mock.mkScript
    (fun _ _ => Raise (ValueError "Product service is currently unavailable."))
    (fun _ _ => Raise (ValueError "Product service is currently unavailable."))
    (fun _ _ => Raise (ValueError "Cannot connect to users service"))
    (fun _ order => Ok (Order.mk (Some 1) (Order.total_price order)
                          (Order.product_ids order) (Order.status order)
                          (Order.created_at order) (Order.updated_at order)
                          (Order.user_name order) (Order.user_email order)
                          (Order.user_cpf order)))
    (fun _ _ => Ok (Some (stored "5,6")))
    (fun _ _ _ => Ok [stored "5,6"])
    (fun _ order => Ok order)
    (fun _ _ _ => Raise (OtherException "broker down"))
    (fun _ => 0).

(** The same with a catalogue that answers and a broker that publishes. *)
Definition healthy : Mock.script :=
  Mock.mkScript
    (Mock.on_get_product outage)
    (fun _ _ => Ok [coffee; cake])
    (Mock.on_get_user_by_cpf outage)
    (Mock.on_add outage)
    (Mock.on_get_by_id outage)
    (Mock.on_list_orders outage)
    (Mock.on_update outage)
    (fun _ _ _ => Ok tt)
    (Mock.on_now outage).

(** An order service that accepts every PUT. *)
Definition accepting (log : list Worker.event) (url : string)
    (order_id : Json.value) (status : string) : result Worker.put_response :=
  Ok (Worker.mkPutResponse 200 "" (Ok Json.Null)).

Definition order_service : Worker.OrderUpdateService :=
  Worker.mkOrderUpdateService "http://localhost:8003".

Definition response_message (order_id : Json.value) (status : string) : Worker.body :=
  Worker.Json (Json.Dict [("order_id", order_id); ("status", Json.Str status)]).

End Samples.

(** ** Further behaviour of the breaker: runs and reachable states *)

Module BreakerRuns.
Import Breaker.

(** Every call of [fs], made one after the other from the world [w],
    returns. *)
Fixpoint all_return {W A} (fs : list (M W A)) (w : W) : Prop :=
  match fs with
  | [] => True
  | f :: rest => exists a w', f w = (Ok a, w') /\ all_return rest w'
  end.

(** The shape of a breaker between two calls: CLOSED below the threshold
    with no half-open successes booked; otherwise at the threshold, and
    HALF_OPEN only with a success count that is short of the quota. *)
Definition consistent (self : CircuitBreaker) : Prop :=
  match state self with
  | CLOSED =>
      0 <= failure_count self < failure_threshold self /\
      half_open_successes self = 0
  | OPEN =>
      failure_count self = failure_threshold self /\
      0 <= half_open_successes self /\
      (half_open_successes self = 0 \/
       half_open_successes self < half_open_calls self)
  | HALF_OPEN =>
      failure_count self = failure_threshold self /\
      1 <= half_open_successes self < half_open_calls self
  end.

End BreakerRuns.

(** ** tech/infra/factories/product_gateway_factory.py, and the
    constructors of the two product gateways *)

Module ProductGatewayFactory.
Import Breaker.

(** [str.lower()] on ASCII letters.  (No character outside ASCII lowers
    to one of the letters of ["none"], so the comparison below is not
    affected by the others.) *)
Definition lower_char (c : ascii) : ascii :=
  let n := nat_of_ascii c in
  if (65 <=? n)%nat && (n <=? 90)%nat then ascii_of_nat (n + 32) else c.

Fixpoint lower (s : string) : string :=
  match s with
  | EmptyString => EmptyString
  | String c rest => String (lower_char c) (lower rest)
  end.

(** [os.getenv(name, default)] over an environment [env]. *)
Definition getenv (env : string -> option string) (name default : string) : string :=
  match env name with
  | Some v => v
  | None => default
  end.

(** [HttpProductGateway.__init__] *)
Definition http_init (env : string -> option string) : HttpProductGateway.t :=
  HttpProductGateway.mk (getenv env "SERVICE_PRODUCTS_URL" "http://localhost:8002").

(** [CircuitBreakerProductGateway.__init__]: [cls] is the class attribute
    [_circuit_breaker], [None] until the first instance is built. *)
Definition circuit_breaker_init (env : string -> option string)
    (failure_threshold recovery_timeout half_open_calls : Z)
    (cls : option CircuitBreaker)
  : CircuitBreakerProductGateway.t * option CircuitBreaker :=
  (CircuitBreakerProductGateway.mk (http_init env),
   match cls with
   | None => Some (new failure_threshold recovery_timeout half_open_calls)
   | Some shared => Some shared
   end).

Inductive gateway : Type :=
| Plain (g : HttpProductGateway.t)
| Resilient (g : CircuitBreakerProductGateway.t).

(** [ProductGatewayFactory.create] *)
Definition create (env : string -> option string)
    (resilience_mode : option string)
    (failure_threshold recovery_timeout half_open_calls : Z)
    (cls : option CircuitBreaker) : gateway * option CircuitBreaker :=
  let resilience_mode :=
    match resilience_mode with
    | Some m => m
    | None => getenv env "PRODUCT_GATEWAY_RESILIENCE" "circuit_breaker"
    end in
  let resilience_mode := lower resilience_mode in
  if String.eqb resilience_mode "none" then (Plain (http_init env), cls)
  else if String.eqb resilience_mode "circuit_breaker" then
    let '(g, cls') := circuit_breaker_init env failure_threshold
                        recovery_timeout half_open_calls cls in
    (Resilient g, cls')
  else
    let '(g, cls') := circuit_breaker_init env failure_threshold
                        recovery_timeout half_open_calls cls in
    (Resilient g, cls').

End ProductGatewayFactory.

(** ** tech/infra/rabbitmq_broker.py *)

Module RabbitMQBroker.

(** The calls made on pika, in order. *)
Inductive event : Type :=
| Connect
| OpenChannel
| QueueDeclare (queue : string) (durable : bool)
| BasicPublish (exchange routing_key : string) (body : PaymentRequest.t)
               (delivery_mode : Z)
| Close.

(** pika and the server behind it: how each call ends, given the calls
    made before; [is_open] is asked about the connection that was opened
    by the n-th call. *)
Record pika : Type := mkPika {
  on_connect : list event -> result unit;
  on_channel : list event -> result unit;
  is_open : list event -> nat -> bool;
  on_queue_declare : list event -> string -> result unit;
  on_basic_publish : list event -> string -> PaymentRequest.t -> result unit
}.

(** The broker object: [connection] and [channel] are [None] or the
    object made by the call whose number they hold. *)
Record t : Type := mk {
  connection : option nat;
  channel : option nat
}.

Section WithPika.
Variable p : pika.

(** [pika.BlockingConnection(self.connection_params)] *)
Definition BlockingConnection : M (list event) nat :=
  fun log =>
    match on_connect p log with
    | Ok _ => (Ok (List.length log), (log ++ [Connect])%list)
    | Raise e => (Raise e, (log ++ [Connect])%list)
    end.

(** [self.connection.channel()] *)
Definition open_channel : M (list event) nat :=
  fun log =>
    match on_channel p log with
    | Ok _ => (Ok (List.length log), (log ++ [OpenChannel])%list)
    | Raise e => (Raise e, (log ++ [OpenChannel])%list)
    end.

(** [RabbitMQBroker.__init__], from a log of earlier calls: a failure
    leaves both attributes [None] and is not raised. *)
Definition init (log : list event) : t * list event :=
  match BlockingConnection log with
  | (Raise _, log1) => (mk None None, log1)
  | (Ok c, log1) =>
      match open_channel log1 with
      | (Raise _, log2) => (mk None None, log2)
      | (Ok ch, log2) => (mk (Some c) (Some ch), log2)
      end
  end.

(** [self.connection is None or not self.connection.is_open] *)
Definition unusable (self : t) (log : list event) : bool :=
  match connection self with
  | None => true
  | Some c => negb (is_open p log c)
  end.

(** [RabbitMQBroker._ensure_connection]: the two assignments are made one
    after the other, and the exception of either call is raised again. *)
Definition _ensure_connection : M (t * list event) unit :=
  fun '(self, log) =>
    if unusable self log then
      match BlockingConnection log with
      | (Raise e, log1) => (Raise e, (self, log1))
      | (Ok c, log1) =>
          let self := mk (Some c) (channel self) in
          match open_channel log1 with
          | (Raise e, log2) => (Raise e, (self, log2))
          | (Ok ch, log2) => (Ok tt, (mk (connection self) (Some ch), log2))
          end
      end
    else (Ok tt, (self, log)).

(** [self.channel.queue_declare(queue=queue, durable=True)]; while
    [self.channel] is [None] the attribute lookup raises and pika is not
    called. *)
Definition queue_declare (queue : string) : M (t * list event) unit :=
  fun '(self, log) =>
    match channel self with
    | None =>
        (Raise (AttributeError
                  "'NoneType' object has no attribute 'queue_declare'"),
         (self, log))
    | Some _ =>
        (on_queue_declare p log queue,
         (self, (log ++ [QueueDeclare queue true])%list))
    end.

(** [self.channel.basic_publish(exchange='', routing_key=queue, body=...,
    properties=pika.BasicProperties(delivery_mode=2, ...))] *)
Definition basic_publish (queue : string) (message : PaymentRequest.t)
  : M (t * list event) unit :=
  fun '(self, log) =>
    match channel self with
    | None =>
        (Raise (AttributeError
                  "'NoneType' object has no attribute 'basic_publish'"),
         (self, log))
    | Some _ =>
        (on_basic_publish p log queue message,
         (self, (log ++ [BasicPublish "" queue message 2])%list))
    end.

(** [RabbitMQBroker.publish]; the body is [json.dumps(message)], kept here
    as the message. *)
Definition publish (queue : string) (message : PaymentRequest.t)
  : M (t * list event) unit :=
  (_ensure_connection ;;;
   try_except
     (queue_declare queue ;;; basic_publish queue message)
     (fun e =>
        fun '(self, log) => (Raise e, (mk None (channel self), log))))%py.

(** [RabbitMQBroker.close] *)
Definition close : M (t * list event) unit :=
  fun '(self, log) =>
    if negb (unusable self log)
    then (Ok tt, (self, (log ++ [Close])%list))
    else (Ok tt, (self, log)).

End WithPika.

(** The broker as a [MessageBroker]. *)
Definition message_broker (p : pika) : MessageBroker.t (t * list event) :=
  MessageBroker.mk (publish p).

End RabbitMQBroker.

(** The world after one more request to the products service, or to the
    users service. *)
Definition one_more_products_request (w : World) : World :=
  mkWorld (clock w) (products_service w) (S (products_requests w))
          (users_service w) (users_requests w).

Definition one_more_users_request (w : World) : World :=
  mkWorld (clock w) (products_service w) (products_requests w)
          (users_service w) (S (users_requests w)).

(** A status code in 2xx. *)
Definition is_success (code : Z) : Prop := 200 <= code <= 299.

(** The string has a comma in it. *)
Fixpoint has_comma (s : string) : bool :=
  match s with
  | EmptyString => false
  | String c rest => Ascii.eqb c ","%char || has_comma rest
  end.

(** The PUT the worker owes for a payment status: one, with the mapped
    order status, when the status is a string the table maps; none
    otherwise. *)
Definition puts_for (url : string) (order_id payment_status : Json.value)
  : list Worker.event :=
  match payment_status with
  | Json.Str code =>
      match dict_get Worker.status_map code with
      | Some order_status => [Worker.Put url order_id order_status]
      | None => []
      end
  | _ => []
  end.

(** A JSON value that is an object. *)
Definition is_object (v : Json.value) : bool :=
  match v with Json.Dict _ => true | _ => false end.

(** ** More sample data *)

Module MoreSamples.
Import Breaker.

Definition ana : User := [("username", "ana"); ("email", "ana@example.com")].

(** Collaborators with a working catalogue and a customer service that
    knows [ana]. *)
Definition with_customer : Mock.script :=
  Mock.mkScript
    (Mock.on_get_product Samples.healthy)
    (Mock.on_get_products Samples.healthy)
    (fun _ _ => Ok (Some ana))
    (Mock.on_add Samples.healthy)
    (Mock.on_get_by_id Samples.healthy)
    (Mock.on_list_orders Samples.healthy)
    (Mock.on_update Samples.healthy)
    (Mock.on_publish Samples.healthy)
    (Mock.on_now Samples.healthy).

(** A customer service that breaks with something else than [ValueError]. *)
Definition broken_customers : Mock.script :=
  Mock.mkScript
    (Mock.on_get_product Samples.healthy)
    (Mock.on_get_products Samples.healthy)
    (fun _ _ => Raise (OtherException "boom"))
    (Mock.on_add Samples.healthy)
    (Mock.on_get_by_id Samples.healthy)
    (Mock.on_list_orders Samples.healthy)
    (Mock.on_update Samples.healthy)
    (Mock.on_publish Samples.healthy)
    (Mock.on_now Samples.healthy).

(** A store that has no order and one that cannot update. *)
Definition empty_store : Mock.script :=
  Mock.mkScript
    (Mock.on_get_product Samples.healthy)
    (Mock.on_get_products Samples.healthy)
    (Mock.on_get_user_by_cpf Samples.healthy)
    (Mock.on_add Samples.healthy)
    (fun _ _ => Ok None)
    (fun _ _ _ => Ok [])
    (Mock.on_update Samples.healthy)
    (Mock.on_publish Samples.healthy)
    (Mock.on_now Samples.healthy).

Definition failing_update : Mock.script :=
  Mock.mkScript
    (Mock.on_get_product Samples.healthy)
    (Mock.on_get_products Samples.healthy)
    (Mock.on_get_user_by_cpf Samples.healthy)
    (Mock.on_add Samples.healthy)
    (Mock.on_get_by_id Samples.healthy)
    (Mock.on_list_orders Samples.healthy)
    (fun _ _ => Raise (OtherException "database is locked"))
    (Mock.on_publish Samples.healthy)
    (Mock.on_now Samples.healthy).

(** A users service that answers 404, and one that answers 500. *)
Definition users_404 : World :=
  mkWorld 0 (products_service Samples.world) 0
          (fun _ _ => Ok (mkResponse 404 "not found" (Ok None))) 0.

Definition users_500 : World :=
  mkWorld 0 (products_service Samples.world) 0
          (fun _ _ => Ok (mkResponse 500 "internal error" (Ok None))) 0.

(** A products service that cannot be reached; a users service that knows
    [ana]; the sample world two minutes later. *)
Definition products_unreachable : World :=
  mkWorld 0 (fun _ => Raise (ConnectError "connection refused")) 0
          (users_service Samples.world) 0.

Definition users_know_ana : World :=
  mkWorld 0 (products_service Samples.world) 0
          (fun _ _ => Ok (mkResponse 200 "" (Ok (Some ana)))) 0.

Definition later : World :=
  mkWorld 120 (products_service Samples.world) 0
          (users_service Samples.world) 0.

Definition http_users : HttpUserGateway.t :=
  HttpUserGateway.mk "http://localhost:8000".

(** A breaker one failure short of opening, and one in its trial phase. *)
Definition strained : CircuitBreaker := mkCircuitBreaker 3 15 1 CLOSED 2 90 0.
Definition probing : CircuitBreaker := mkCircuitBreaker 3 30 2 HALF_OPEN 3 100 1.

(** An open breaker that asks for two successful trials. *)
Definition tripped_quota_2 : CircuitBreaker := mkCircuitBreaker 3 30 2 OPEN 3 100 0.

(** pika with a server that accepts everything, and one whose publish
    fails. *)
Definition pika_up : RabbitMQBroker.pika :=
  RabbitMQBroker.mkPika (fun _ => Ok tt) (fun _ => Ok tt) (fun _ _ => true)
                        (fun _ _ => Ok tt) (fun _ _ _ => Ok tt).

Definition pika_flaky : RabbitMQBroker.pika :=
  RabbitMQBroker.mkPika (fun _ => Ok tt) (fun _ => Ok tt) (fun _ _ => true)
                        (fun _ _ => Ok tt)
                        (fun _ _ _ => Raise (OtherException "channel closed")).

Definition pika_down : RabbitMQBroker.pika :=
  RabbitMQBroker.mkPika (fun _ => Raise (OtherException "connection refused"))
                        (fun _ => Ok tt) (fun _ _ => false)
                        (fun _ _ => Ok tt) (fun _ _ _ => Ok tt).



Definition payment : PaymentRequest.t :=
  PaymentRequest.mk (Some 1) 100
    (PaymentRequest.mkCustomer (Some "Test User") None None).

End MoreSamples.

(** * Properties *)

Module BreakerFacts.
Import Breaker.

Section WithWorld.
Context {W A : Type} (clock : W -> Z).

Lemma failures_cons (r : result A) rs :
  failures (r :: rs) = (if is_raise r then 1 else 0) + failures rs.
Proof.
  unfold failures. cbn [filter]. destruct (is_raise r).
  - cbn [List.length]. lia.
  - lia.
Qed.

Lemma failures_nonneg (rs : list (result A)) : 0 <= failures rs.
Proof. unfold failures. lia. Qed.

(** A call that returns, made while CLOSED, changes nothing in the breaker. *)
Lemma execute_closed_success (f : M W A) self w a w' :
  state self = CLOSED ->
  f w = (Ok a, w') ->
  execute clock f (self, w) = (Ok a, (self, w')).
Proof.
  intros Hst Hf. unfold execute, before_call, after_success.
  rewrite Hst, Hf. rewrite Hst. reflexivity.
Qed.

(** A call that raises, made while CLOSED, is counted, and opens the
    breaker when the count gets to the threshold. *)
Lemma execute_closed_failure (f : M W A) self w e w' :
  state self = CLOSED ->
  f w = (Raise e, w') ->
  execute clock f (self, w) =
    (Raise e,
     (mkCircuitBreaker (failure_threshold self) (recovery_timeout self)
        (half_open_calls self)
        (if failure_threshold self <=? failure_count self + 1
         then OPEN else CLOSED)
        (failure_count self + 1) (clock w') (half_open_successes self),
      w')).
Proof.
  intros Hst Hf. unfold execute, before_call, _handle_failure.
  rewrite Hst, Hf. cbn. rewrite Hst. cbn.
  destruct (failure_threshold self <=? failure_count self + 1);
    unfold set_state, set_failure_count, set_last_failure_time; cbn;
    rewrite ?Hst; reflexivity.
Qed.

Lemma execute_all_closed (fs : list (M W A)) :
  forall self w rs self' w',
    state self = CLOSED ->
    execute_all clock fs (self, w) = (rs, (self', w')) ->
    failure_count self + failures rs < failure_threshold self ->
    state self' = CLOSED /\
    failure_count self' = failure_count self + failures rs /\
    failure_threshold self' = failure_threshold self.
Proof.
  induction fs as [|f fs IH]; intros self w rs self' w' Hst Hrun Hlt.
  - cbn in Hrun. inversion Hrun; subst. cbn. repeat split; try assumption.
    unfold failures; cbn; lia.
  - cbn [execute_all] in Hrun.
    destruct (f w) as [[a|e] w1] eqn:Hf.
    + rewrite (execute_closed_success f self w a w1 Hst Hf) in Hrun.
      destruct (execute_all clock fs (self, w1)) as [rs1 s2] eqn:Hrest.
      inversion Hrun; subst. rewrite failures_cons in Hlt |- *.
      cbn [is_raise] in Hlt |- *.
      eapply IH; eauto.
    + rewrite (execute_closed_failure f self w e w1 Hst Hf) in Hrun.
      match type of Hrun with
      | context [execute_all clock fs (?c, w1)] =>
          destruct (execute_all clock fs (c, w1)) as [rs1 s2] eqn:Hrest
      end.
      inversion Hrun; subst. rewrite failures_cons in Hlt |- *.
      cbn [is_raise] in Hlt |- *.
      pose proof (failures_nonneg rs1) as Hnn.
      destruct (Z.leb_spec (failure_threshold self) (failure_count self + 1));
        [lia|].
      eapply IH in Hrest; [ | reflexivity | cbn; lia ].
      cbn in Hrest. destruct Hrest as (H1 & H2 & H3).
      repeat split; [assumption | lia | assumption].
Qed.

(** C1. From a fresh breaker with threshold [F], as long as fewer than
    [F] calls have raised, the breaker is CLOSED and its counter is the
    number of raises so far (calls that returned in between changed
    nothing); a further call that returns leaves the breaker as it is;
    a further call that raises is counted, records the failure time,
    and opens the breaker exactly when it is the [F]-th raise. *)
Theorem C1_failures_open_at_threshold :
  forall (F T K : Z) (fs : list (M W A)) (w0 : W) rs self w,
    execute_all clock fs (new F T K, w0) = (rs, (self, w)) ->
    failures rs < F ->
    (state self = CLOSED /\ failure_count self = failures rs) /\
    (forall (f : M W A) a w',
        f w = (Ok a, w') ->
        execute clock f (self, w) = (Ok a, (self, w'))) /\
    (forall (f : M W A) e w',
        f w = (Raise e, w') ->
        exists self',
          execute clock f (self, w) = (Raise e, (self', w')) /\
          failure_count self' = failures rs + 1 /\
          last_failure_time self' = clock w' /\
          (failures rs + 1 = F -> state self' = OPEN) /\
          (failures rs + 1 < F -> state self' = CLOSED)).
Proof.
  intros F T K fs w0 rs self w Hrun Hlt.
  destruct (execute_all_closed fs (new F T K) w0 rs self w eq_refl Hrun)
    as (Hst & Hcnt & Hthr); [cbn; lia|].
  cbn in Hcnt, Hthr. repeat split; try assumption.
  - intros f a w' Hf. now apply execute_closed_success.
  - intros f e w' Hf. eexists. split.
    + now apply execute_closed_failure.
    + cbn. rewrite Hcnt, Hthr. repeat split; intros; try lia.
      * destruct (Z.leb_spec F (failures rs + 1)); [reflexivity | lia].
      * destruct (Z.leb_spec F (failures rs + 1)); [lia | reflexivity].
Qed.

(** C2. While OPEN with at most the recovery timeout elapsed since the
    last failure, [execute] raises [CircuitOpenError], the wrapped
    operation is not run (the world, and a call count kept for the
    operation, stay as they were) and the breaker is unchanged. *)
Theorem C2_open_within_timeout_rejects :
  forall (f : M W A) self w,
    state self = OPEN ->
    clock w - last_failure_time self <= recovery_timeout self ->
    execute clock f (self, w)
      = (Raise (CircuitOpenError unavailable), (self, w)) /\
    forall n : nat,
      execute (fun cw => clock (snd cw)) (counted f) (self, (n, w))
        = (Raise (CircuitOpenError unavailable), (self, (n, w))).
Proof.
  intros f self w Hst Hel. unfold execute, before_call. rewrite Hst. cbn.
  destruct (Z.ltb_spec (recovery_timeout self) (clock w - last_failure_time self));
    [lia|]. split; reflexivity.
Qed.

(** C3, amended. While OPEN with strictly more than the recovery timeout
    elapsed since the last failure, the check before the call moves the
    breaker to HALF_OPEN with the half-open success counter at zero,
    and the wrapped operation is run exactly once; its outcome is then
    booked on that HALF_OPEN breaker. *)
Theorem C3_open_past_timeout_half_opens :
  forall (f : M W A) self w,
    state self = OPEN ->
    recovery_timeout self < clock w - last_failure_time self ->
    let trial := set_half_open_successes 0 (set_state HALF_OPEN self) in
    before_call (clock w) self = (Ok tt, trial) /\
    state trial = HALF_OPEN /\ half_open_successes trial = 0 /\
    forall n : nat,
      execute (fun cw => clock (snd cw)) (counted f) (self, (n, w)) =
        match f w with
        | (Ok a, w') => (Ok a, (after_success trial, (S n, w')))
        | (Raise e, w') =>
            (Raise e, (_handle_failure (clock w') trial, (S n, w')))
        end.
Proof.
  intros f self w Hst Hel trial.
  assert (Hb : before_call (clock w) self = (Ok tt, trial)).
  { unfold before_call. rewrite Hst.
    destruct (Z.ltb_spec (recovery_timeout self) (clock w - last_failure_time self));
      [reflexivity | lia]. }
  repeat split; try assumption.
  intros n. unfold execute. cbn [snd]. rewrite Hb. unfold counted.
  destruct (f w) as [[a|e] w']; reflexivity.
Qed.

End WithWorld.

Import Samples.

Lemma C1_witness :
  state (fst (snd (execute_all wall [raises_boom; returns_7] (new 2 30 1, 5))))
    = CLOSED /\
  failure_count (fst (snd (execute_all wall [raises_boom; returns_7] (new 2 30 1, 5))))
    = 1 /\
  exists self',
    execute wall raises_boom
      (snd (execute_all wall [raises_boom; returns_7] (new 2 30 1, 5)))
      = (Raise (OtherException "boom"), (self', 8)) /\
    state self' = OPEN /\ last_failure_time self' = 8.
Proof.
  destruct (C1_failures_open_at_threshold wall 2 30 1 [raises_boom; returns_7] 5
              _ _ _ eq_refl ltac:(vm_compute; reflexivity))
    as ([H1 H2] & _ & H3).
  split; [exact H1|]. split; [exact H2|].
  destruct (H3 raises_boom (OtherException "boom") 8 eq_refl)
    as (self' & He & _ & Ht & Hopen & _).
  exists self'. split; [exact He|]. split; [apply Hopen; reflexivity | exact Ht].
Defined.

Lemma C2_witness :
  wall 130 - last_failure_time tripped <= recovery_timeout tripped /\
  execute (fun cw => wall (snd cw)) (counted returns_7) (tripped, (0%nat, 130))
  = (Raise (CircuitOpenError unavailable), (tripped, (0%nat, 130))).
Proof.
  split; [cbn; lia|].
  exact (proj2 (C2_open_within_timeout_rejects wall returns_7 tripped 130
                  eq_refl ltac:(cbn; lia)) 0%nat).
Defined.

(** C3 as stated fails when the elapsed time equals the timeout: the call
    is rejected, the operation is not run, the breaker stays OPEN. *)
Lemma C3_counterexample :
  state tripped = OPEN /\
  recovery_timeout tripped <= wall 130 - last_failure_time tripped /\
  execute (fun cw => wall (snd cw)) (counted returns_7) (tripped, (0%nat, 130))
  = (Raise (CircuitOpenError unavailable), (tripped, (0%nat, 130))) /\
  state (fst (snd (execute (fun cw => wall (snd cw)) (counted returns_7)
                     (tripped, (0%nat, 130))))) <> HALF_OPEN.
Proof.
  split; [reflexivity|]. split; [cbn; lia|]. split; [reflexivity|].
  cbn. discriminate.
Qed.

Lemma C3_witness :
  recovery_timeout tripped < wall 131 - last_failure_time tripped /\
  execute (fun cw => wall (snd cw)) (counted returns_7) (tripped, (0%nat, 131))
  = (Ok 7, (mkCircuitBreaker 3 30 1 CLOSED 0 100 0, (1%nat, 132))).
Proof.
  split; [cbn; lia|].
  pose proof (C3_open_past_timeout_half_opens wall returns_7 tripped 131
                eq_refl ltac:(cbn; lia)) as H.
  cbv zeta in H. destruct H as (_ & _ & _ & H).
  rewrite (H 0%nat). reflexivity.
Defined.

End BreakerFacts.

Module GatewayFacts.
Import Breaker.

Lemma lookup_none all_products pid :
  (forall p, In p all_products -> Product.id p <> pid) ->
  HttpProductGateway.lookup all_products pid = None.
Proof.
  intros H. unfold HttpProductGateway.lookup.
  induction all_products as [|p ps IH]; [reflexivity|].
  cbn. destruct (Z.eqb_spec (Product.id p) pid) as [E|E].
  - exfalso. apply (H p); [now left | exact E].
  - apply IH. intros q Hq. apply H. now right.
Qed.

Lemma first_missing_some all_products ids pid :
  In pid ids ->
  HttpProductGateway.lookup all_products pid = None ->
  exists pid', HttpProductGateway.first_missing all_products ids = Some pid'.
Proof.
  intros Hin Hnone. unfold HttpProductGateway.first_missing.
  destruct (find _ ids) as [x|] eqn:Hf; [now exists x|].
  pose proof (find_none _ _ Hf pid Hin) as H. cbn in H.
  rewrite Hnone in H. discriminate.
Qed.

(** The loop raises at the first requested id that is missing. *)
Lemma collect_first_missing all_products ids pid :
  HttpProductGateway.first_missing all_products ids = Some pid ->
  HttpProductGateway.collect all_products ids
    = Raise (ValueError (HttpProductGateway.not_found pid)).
Proof.
  unfold HttpProductGateway.first_missing.
  induction ids as [|i ids IH]; cbn; [discriminate|].
  destruct (HttpProductGateway.lookup all_products i) as [p|] eqn:Hl.
  - intros H. rewrite (IH H). reflexivity.
  - intros H. inversion H; subst. reflexivity.
Qed.

(** When the loop returns, it returns one entry per requested id, each
    the catalogue's entry for that id. *)
Lemma collect_ok all_products ids products :
  HttpProductGateway.collect all_products ids = Ok products ->
  Forall2 (fun pid p => HttpProductGateway.lookup all_products pid = Some p)
          ids products.
Proof.
  revert products. induction ids as [|i ids IH]; cbn; intros products H.
  - inversion H. constructor.
  - destruct (HttpProductGateway.lookup all_products i) as [p|] eqn:Hl;
      [|discriminate].
    destruct (HttpProductGateway.collect all_products ids) as [ps|e];
      [|discriminate].
    inversion H; subst. constructor; [exact Hl | now apply IH].
Qed.

(** Whatever the world does, the HTTP gateway raises nothing but
    [ValueError]. *)
Lemma handlers_value_error self e :
  exists msg, HttpProductGateway.handlers self e = ValueError msg.
Proof. destruct e; cbn; eexists; reflexivity. Qed.

Lemma http_get_products_raises self ids w e w' :
  HttpProductGateway.get_products self ids w = (Raise e, w') ->
  exists msg, e = ValueError msg.
Proof.
  unfold HttpProductGateway.get_products, try_except.
  match goal with |- context [match ?c w with _ => _ end] =>
    destruct (c w) as [[ps|e0] w0] end.
  - discriminate.
  - unfold raise. intros H. inversion H; subst.
    apply handlers_value_error.
Qed.

Lemma cb_get_products_raises self ids s e s' :
  CircuitBreakerProductGateway.get_products self ids s = (Raise e, s') ->
  exists msg, e = ValueError msg.
Proof.
  destruct s as [cb w].
  unfold CircuitBreakerProductGateway.get_products, try_except, execute.
  destruct (before_call (clock w) cb) as [[[]|e0] cb1] eqn:Hb.
  - destruct (HttpProductGateway.get_products _ ids w) as [[ps|e1] w1] eqn:Hget.
    + discriminate.
    + destruct (http_get_products_raises _ _ _ _ _ Hget) as [msg ->].
      cbn. unfold raise. intros H. inversion H; subst. now exists msg.
  - unfold before_call in Hb. destruct (state cb); try discriminate.
    destruct (recovery_timeout cb <? clock w - last_failure_time cb);
      inversion Hb; subst.
    cbn. unfold raise. intros H. inversion H; subst. eexists. reflexivity.
Qed.

(** Both product gateways keep the contract of the interface. *)
Lemma http_gateway_contract self :
  raises_ValueError_only (http_product_gateway self).
Proof. intros ids s e s' H. exact (http_get_products_raises self ids s e s' H). Qed.

Lemma circuit_breaker_gateway_contract self :
  raises_ValueError_only (circuit_breaker_product_gateway self).
Proof. intros ids s e s' H. exact (cb_get_products_raises self ids s e s' H). Qed.

(** A returned list is never partial. *)
Lemma http_get_products_complete self ids w products w' :
  HttpProductGateway.get_products self ids w = (Ok products, w') ->
  List.length products = List.length ids.
Proof.
  unfold HttpProductGateway.get_products, try_except, bind, lift,
    client_get_products.
  destruct (products_service w (products_requests w)) as [resp|e];
    [|unfold raise; discriminate].
  destruct (raise_for_status resp); [|unfold raise; discriminate].
  destruct (json resp) as [all|e]; [|unfold raise; discriminate].
  destruct (HttpProductGateway.collect all ids) as [ps|e] eqn:Hc;
    [|unfold raise; discriminate].
  intros H. inversion H; subst.
  symmetry. eapply Forall2_length. eapply collect_ok; eauto.
Qed.

Lemma http_get_products_missing self ids catalogue missing code body w :
  In missing ids ->
  (forall p, In p catalogue -> Product.id p <> missing) ->
  products_service w (products_requests w)
    = Ok (mkResponse code body (Ok catalogue)) ->
  exists msg w',
    HttpProductGateway.get_products self ids w = (Raise (ValueError msg), w') /\
    (200 <= code <= 299 ->
     exists pid,
       HttpProductGateway.first_missing catalogue ids = Some pid /\
       msg = "Failed to communicate with products service: "
             ++ HttpProductGateway.not_found pid).
Proof.
  intros Hin Habs Hsvc.
  destruct (first_missing_some catalogue ids missing Hin
              (lookup_none _ _ Habs)) as [pid Hpid].
  unfold HttpProductGateway.get_products, try_except, bind, lift,
    client_get_products.
  rewrite Hsvc. unfold raise_for_status. cbn [status_code text json].
  destruct (Z.leb_spec 200 code) as [H1|H1];
    destruct (Z.leb_spec code 299) as [H2|H2]; cbn [andb].
  - rewrite (collect_first_missing _ _ _ Hpid). unfold raise. cbn.
    eexists _, _. split; [reflexivity|]. intros _. exists pid. now split.
  - unfold raise. cbn. eexists _, _. split; [reflexivity|]. lia.
  - unfold raise. cbn. eexists _, _. split; [reflexivity|]. lia.
  - unfold raise. cbn. eexists _, _. split; [reflexivity|]. lia.
Qed.

(** C4. When a requested id is absent from the catalogue the products
    service answers with, [get_products] raises [ValueError] and returns
    no list at all: the plain HTTP gateway names the first missing id
    (for a 2xx answer), and the breaker-wrapped gateway either passes
    that error on or raises its own "unavailable" [ValueError]. *)
Theorem C4_get_products_all_or_nothing :
  forall (ids : list Z) (catalogue : list Product.t) (missing : Z)
         (code : Z) (body : string) (w : World),
    In missing ids ->
    (forall p, In p catalogue -> Product.id p <> missing) ->
    products_service w (products_requests w)
      = Ok (mkResponse code body (Ok catalogue)) ->
    (forall self : HttpProductGateway.t,
        exists msg w',
          HttpProductGateway.get_products self ids w
            = (Raise (ValueError msg), w') /\
          (200 <= code <= 299 ->
           exists pid,
             HttpProductGateway.first_missing catalogue ids = Some pid /\
             msg = "Failed to communicate with products service: "
                   ++ HttpProductGateway.not_found pid)) /\
    (forall (self : CircuitBreakerProductGateway.t) (cb : CircuitBreaker),
        exists msg s',
          CircuitBreakerProductGateway.get_products self ids (cb, w)
            = (Raise (ValueError msg), s') /\
          (msg = CircuitBreakerProductGateway.product_unavailable \/
           HttpProductGateway.get_products
             (CircuitBreakerProductGateway.http_gateway self) ids w
             = (Raise (ValueError msg), snd s'))).
Proof.
  intros ids catalogue missing code body w Hin Habs Hsvc. split.
  - intros self. eapply http_get_products_missing; eauto.
  - intros self cb.
    destruct (http_get_products_missing
                (CircuitBreakerProductGateway.http_gateway self)
                ids catalogue missing code body w Hin Habs Hsvc)
      as (msg & w' & Hget & _).
    unfold CircuitBreakerProductGateway.get_products, try_except, execute.
    destruct (before_call (clock w) cb) as [[[]|e] cb1] eqn:Hb.
    + rewrite Hget. cbn. eexists _, _. split; [reflexivity|]. right. reflexivity.
    + unfold before_call in Hb.
      destruct (state cb); try discriminate.
      destruct (recovery_timeout cb <? clock w - last_failure_time cb);
        inversion Hb; subst. cbn.
      eexists _, _. split; [reflexivity|]. now left.
Qed.

(** The plain HTTP user gateway raises nothing but [ValueError]: the
    failure that order creation absorbs. *)
Lemma http_get_user_raises self cpf w e w' :
  HttpUserGateway.get_user_by_cpf self cpf w = (Raise e, w') ->
  exists msg, e = ValueError msg.
Proof.
  unfold HttpUserGateway.get_user_by_cpf, try_except.
  match goal with |- context [match ?c w with _ => _ end] =>
    destruct (c w) as [[u|e0] w0] end.
  - discriminate.
  - unfold raise. intros H. inversion H; subst.
    destruct e0; cbn; eexists; reflexivity.
Qed.

(** C5. The breaker-wrapped user gateway always returns: when the
    breaker rejects the call, or the wrapped call raises, it returns
    [None]. *)
Theorem C5_user_lookup_never_raises :
  forall (self : CircuitBreakerUserGateway.t) (cpf : string)
         (cb : CircuitBreaker) (w : World),
    exists (user : option User) s',
      CircuitBreakerUserGateway.get_user_by_cpf self cpf (cb, w)
        = (Ok user, s') /\
      (forall e s1,
          execute clock
            (HttpUserGateway.get_user_by_cpf
               (CircuitBreakerUserGateway.http_gateway self) cpf) (cb, w)
            = (Raise e, s1) ->
          user = None /\ s' = s1).
Proof.
  intros self cpf cb w.
  unfold CircuitBreakerUserGateway.get_user_by_cpf, try_except.
  destruct (execute clock _ (cb, w)) as [[u|e] s1].
  - eexists _, _. split; [reflexivity|]. intros e s2 H. discriminate.
  - destruct e; cbn; eexists _, _; (split; [reflexivity|]);
      intros e' s2 H; inversion H; subst; now split.
Qed.

Import Samples.

Lemma C4_witness :
  In 3 [1; 2; 3] /\
  fst (HttpProductGateway.get_products http_products [1; 2; 3] world)
    = Raise (ValueError
        "Failed to communicate with products service: Product with ID 3 not found") /\
  exists msg,
    fst (CircuitBreakerProductGateway.get_products
           (CircuitBreakerProductGateway.mk http_products) [1; 2; 3]
           (new 3 15 1, world))
      = Raise (ValueError msg).
Proof.
  assert (Hin : In 3 [1; 2; 3]) by (cbn; tauto).
  assert (Habs : forall p, In p [coffee; cake] -> Product.id p <> 3).
  { intros p [<-|[<-|[]]]; cbn; lia. }
  destruct (C4_get_products_all_or_nothing [1; 2; 3] [coffee; cake] 3 200 ""
              world Hin Habs eq_refl) as [Hhttp Hcb].
  split; [exact Hin|]. split.
  - destruct (Hhttp http_products) as (msg & w' & Hget & Hname).
    destruct (Hname ltac:(lia)) as (pid & Hpid & ->).
    rewrite Hget. cbn in Hpid. inversion Hpid; subst. reflexivity.
  - destruct (Hcb (CircuitBreakerProductGateway.mk http_products) (new 3 15 1))
      as (msg & s' & Hget & _).
    exists msg. rewrite Hget. reflexivity.
Defined.

End GatewayFacts.

Module ReadFacts.

Section WithDependencies.
Context {S : Type}.
Variable order_repository : OrderRepository.t S.
Variable product_gateway : ProductGateway.t S.
Variable int : string -> result Z.

Lemma placeholders_when_down_ValueError ids s :
  gateway_down product_gateway ->
  exists s',
    ListOrdersUseCase.product_details product_gateway ids s
      = (Ok (ProductIds.placeholders ids), s').
Proof.
  intros Hdown. unfold ListOrdersUseCase.product_details.
  destruct ids as [|i ids]; cbn [ProductIds.nonempty].
  - eexists. reflexivity.
  - destruct (Hdown (i :: ids) s) as (msg & s' & H).
    unfold try_except_ValueError, try_except, bind. rewrite H.
    eexists. reflexivity.
Qed.

Lemma placeholders_when_down_Exception ids s :
  gateway_down product_gateway ->
  exists s',
    OrderController.product_details product_gateway ids s
      = (Ok (ProductIds.placeholders ids), s').
Proof.
  intros Hdown. unfold OrderController.product_details.
  destruct ids as [|i ids]; cbn [ProductIds.nonempty].
  - eexists. reflexivity.
  - destruct (Hdown (i :: ids) s) as (msg & s' & H).
    unfold try_except, bind. rewrite H. eexists. reflexivity.
Qed.

Lemma order_response_down order s :
  gateway_down product_gateway ->
  readable int order ->
  exists r s',
    ListOrdersUseCase.order_response product_gateway int order s = (Ok r, s') /\
    degraded int order r.
Proof.
  intros Hdown (i & ids & Hid & Hparse).
  unfold ListOrdersUseCase.order_response, bind, lift. rewrite Hparse.
  destruct (placeholders_when_down_ValueError ids s Hdown) as [s' H].
  rewrite H, Hid. cbn [OrderPublic.new].
  destruct (truthy_dict _); cbn; eexists _, _; (split; [reflexivity|]);
    exists ids; cbn; auto.
Qed.

Lemma for_each_down orders :
  gateway_down product_gateway ->
  Forall (readable int) orders ->
  forall s,
  exists rs s',
    ListOrdersUseCase.for_each product_gateway int orders s = (Ok rs, s') /\
    Forall2 (degraded int) orders rs.
Proof.
  intros Hdown Hall. induction Hall as [|order orders Hr _ IH]; intros s.
  - cbn. eexists _, _. split; [reflexivity | constructor].
  - cbn [ListOrdersUseCase.for_each]. unfold bind.
    destruct (order_response_down order s Hdown Hr) as (r & s1 & H1 & Hd).
    rewrite H1. destruct (IH s1) as (rs & s2 & H2 & Hds). rewrite H2.
    cbn. eexists _, _. split; [reflexivity | now constructor].
Qed.

Lemma product_details_failed ids s msg s' :
  ProductGateway.get_products product_gateway ids s = (Raise (ValueError msg), s') ->
  ids <> [] ->
  ListOrdersUseCase.product_details product_gateway ids s
    = (Ok (ProductIds.placeholders ids), s').
Proof.
  intros H Hne. unfold ListOrdersUseCase.product_details.
  destruct ids as [|i ids]; [congruence|]. cbn [ProductIds.nonempty].
  unfold try_except_ValueError, try_except, bind. rewrite H. reflexivity.
Qed.

(** C6. The product gateway keeps the contract of its interface (both
    gateways of the service do).  Take a stored order whose product ids
    parse to a non-empty list, and let the [get_products] call made for it
    raise.  Then each of the three reads returns, with the placeholder
    [{id, "Unknown", 0}] for every product id of the order: the body of the
    list-orders loop (and so a page holding the order), [get_order], and
    the read that follows a status update. *)
Theorem C6_reads_degrade_to_placeholders :
  raises_ValueError_only product_gateway ->
  forall (order : Order.t) (i : Z) (ids : list Z),
    Order.id order = Some i ->
    ProductIds.parse int (Order.product_ids order) = Ok ids ->
    ids <> [] ->
    (forall s e s',
        ProductGateway.get_products product_gateway ids s = (Raise e, s') ->
        exists r,
          ListOrdersUseCase.order_response product_gateway int order s
            = (Ok r, s') /\
          OrderPublic.products r = ProductIds.placeholders ids) /\
    (forall limit skip s0 s e s',
        OrderRepository.list_orders order_repository limit skip s0
          = (Ok [order], s) ->
        ProductGateway.get_products product_gateway ids s = (Raise e, s') ->
        exists r,
          ListOrdersUseCase.execute order_repository product_gateway int
            limit skip s0 = (Ok [r], s') /\
          OrderPublic.products r = ProductIds.placeholders ids) /\
    (forall order_id s0 s e s',
        OrderRepository.get_by_id order_repository order_id s0
          = (Ok (Some order), s) ->
        ProductGateway.get_products product_gateway ids s = (Raise e, s') ->
        exists r,
          OrderController.get_order order_repository product_gateway int
            order_id s0 = (Ok r, s') /\
          OrderController.products r = ProductIds.placeholders ids) /\
    (forall order_id status before s0 s1 s e s',
        OrderRepository.get_by_id order_repository order_id s0
          = (Ok (Some before), s1) ->
        OrderRepository.update order_repository
          (Order.set_status status before) s1 = (Ok order, s) ->
        ProductGateway.get_products product_gateway ids s = (Raise e, s') ->
        exists r,
          UpdateOrderStatusUseCase.execute order_repository product_gateway int
            order_id status s0 = (Ok r, s') /\
          OrderPublic.products r = ProductIds.placeholders ids).
Proof.
  intros Hcontract order i ids Hid Hparse Hne.
  assert (Hbody : forall s e s',
             ProductGateway.get_products product_gateway ids s = (Raise e, s') ->
             exists r,
               ListOrdersUseCase.order_response product_gateway int order s
                 = (Ok r, s') /\
               OrderPublic.products r = ProductIds.placeholders ids).
  { intros s e s' Hgw.
    destruct (Hcontract _ _ _ _ Hgw) as [msg ->].
    unfold ListOrdersUseCase.order_response, bind, lift. rewrite Hparse.
    rewrite (product_details_failed ids s msg s' Hgw Hne), Hid.
    cbn [OrderPublic.new].
    destruct (truthy_dict _); eexists; split; reflexivity. }
  split; [exact Hbody|]. split; [|split].
  - intros limit skip s0 s e s' Hlist Hgw.
    destruct (Hbody s e s' Hgw) as (r & Hr & Hp).
    exists r. split; [|exact Hp].
    unfold ListOrdersUseCase.execute, bind. rewrite Hlist.
    cbn [ListOrdersUseCase.for_each]. unfold bind. rewrite Hr. reflexivity.
  - intros order_id s0 s e s' Hget Hgw.
    unfold OrderController.get_order, try_except, bind. rewrite Hget.
    unfold lift. rewrite Hparse. unfold OrderController.product_details.
    destruct ids as [|j ids]; [congruence|]. cbn [ProductIds.nonempty].
    unfold try_except, bind. rewrite Hgw. cbn.
    eexists. split; reflexivity.
  - intros order_id status before s0 s1 s e s' Hget Hupd Hgw.
    destruct (Hcontract _ _ _ _ Hgw) as [msg ->].
    unfold UpdateOrderStatusUseCase.execute, bind. rewrite Hget, Hupd.
    unfold lift. rewrite Hparse.
    rewrite (product_details_failed ids s msg s' Hgw Hne), Hid.
    cbn [OrderPublic.new].
    destruct (truthy_dict _); eexists; split; reflexivity.
Qed.

End WithDependencies.

Import Samples.

Lemma C6_witness :
  ProductIds.parse decimal_int (Order.product_ids (stored "5,6")) = Ok [5; 6] /\
  (exists r,
      OrderController.get_order (Mock.order_repository outage)
        (Mock.product_gateway outage) decimal_int 1 []
        = (Ok r, [Mock.GetById 1; Mock.GetProducts [5; 6]]) /\
      OrderController.products r
        = [ProductDetail.mk 5 "Unknown" 0; ProductDetail.mk 6 "Unknown" 0]) /\
  (exists r,
      ListOrdersUseCase.execute (Mock.order_repository outage)
        (Mock.product_gateway outage) decimal_int 10 0 []
        = (Ok [r], [Mock.ListOrders 10 0; Mock.GetProducts [5; 6]]) /\
      OrderPublic.products r
        = [ProductDetail.mk 5 "Unknown" 0; ProductDetail.mk 6 "Unknown" 0]) /\
  (exists r,
      UpdateOrderStatusUseCase.execute (Mock.order_repository outage)
        (Mock.product_gateway outage) decimal_int 1 OrderStatus.READY []
        = (Ok r, [Mock.GetById 1;
                  Mock.Update (Order.set_status OrderStatus.READY (stored "5,6"));
                  Mock.GetProducts [5; 6]]) /\
      OrderPublic.products r
        = [ProductDetail.mk 5 "Unknown" 0; ProductDetail.mk 6 "Unknown" 0]).
Proof.
  split; [reflexivity|].
  assert (Hcontract : raises_ValueError_only (Mock.product_gateway outage)).
  { intros ids s e s' H. inversion H. eexists. reflexivity. }
  destruct (C6_reads_degrade_to_placeholders (Mock.order_repository outage)
              (Mock.product_gateway outage) decimal_int Hcontract
              (stored "5,6") 1 [5; 6] eq_refl eq_refl ltac:(discriminate))
    as (_ & Hlist & Hget & _).
  destruct (C6_reads_degrade_to_placeholders (Mock.order_repository outage)
              (Mock.product_gateway outage) decimal_int Hcontract
              (Order.set_status OrderStatus.READY (stored "5,6")) 1 [5; 6]
              eq_refl eq_refl ltac:(discriminate))
    as (_ & _ & _ & Hupd).
  split; [|split].
  - exact (Hget 1 [] [Mock.GetById 1] _ _ eq_refl eq_refl).
  - exact (Hlist 10 0 [] [Mock.ListOrders 10 0] _ _ eq_refl eq_refl).
  - exact (Hupd 1 OrderStatus.READY (stored "5,6") []
             [Mock.GetById 1]
             [Mock.GetById 1;
              Mock.Update (Order.set_status OrderStatus.READY (stored "5,6"))]
             _ _ eq_refl eq_refl eq_refl).
Defined.

End ReadFacts.

Module UseCaseFacts.
Import Mock.

Lemma sum_prices products total :
  List.fold_left (fun total product => PrimFloat.add total (Product.price product))
                 products total
  = List.fold_left PrimFloat.add (List.map Product.price products) total.
Proof.
  revert total. induction products as [|p ps IH]; intros total; cbn;
    [reflexivity | apply IH].
Qed.


Import Samples.



(** C8. For an order the store finds, the use case publishes one message
    [{order_id, amount = total price, customer_info}] on [payment_requests].
    If the publish raises, the use case raises [ValueError] and the store
    was never asked to update.  If it returns, the store is then asked,
    once, to update the order: the same order in every field but the
    status, which is AWAITING_PAYMENT; and what the store returns is the
    result. *)
Theorem C8_publish_then_await_payment :
  forall (sc : script) (order_id : Z) (log : list call) (order : Order.t),
    let request :=
      PaymentRequest.mk (Order.id order) (Order.total_price order)
        (PaymentRequest.mkCustomer (Order.user_name order)
           (Order.user_email order) (Order.user_cpf order)) in
    let log1 := (log ++ [GetById order_id])%list in
    let log2 := (log1 ++ [Publish "payment_requests" request])%list in
    let awaiting :=
      Order.mk (Order.id order) (Order.total_price order)
               (Order.product_ids order) OrderStatus.AWAITING_PAYMENT
               (Order.created_at order) (Order.updated_at order)
               (Order.user_name order) (Order.user_email order)
               (Order.user_cpf order) in
    on_get_by_id sc log order_id = Ok (Some order) ->
    (forall e,
        on_publish sc log1 "payment_requests" request = Raise e ->
        RequestPaymentUseCase.execute (order_repository sc) (message_broker sc)
          order_id log
        = (Raise (ValueError ("Erro ao publicar mensagem de pagamento: "
                              ++ str_exn e)), log2)) /\
    (forall updated,
        on_publish sc log1 "payment_requests" request = Ok tt ->
        on_update sc log2 awaiting = Ok updated ->
        RequestPaymentUseCase.execute (order_repository sc) (message_broker sc)
          order_id log
        = (Ok updated, (log2 ++ [Update awaiting])%list) /\
        Order.status awaiting = OrderStatus.AWAITING_PAYMENT).
Proof.
  intros sc order_id log order request log1 log2 awaiting Hget.
  unfold RequestPaymentUseCase.execute, bind.
  cbn [OrderRepository.get_by_id order_repository recorded].
  rewrite Hget. fold log1. unfold try_except, bind.
  cbn [MessageBroker.publish message_broker recorded].
  unfold RequestPaymentUseCase.payment_request. fold request. fold log2.
  split.
  - intros e Hpub. rewrite Hpub. reflexivity.
  - intros updated Hpub Hupd. rewrite Hpub.
    cbn [OrderRepository.update order_repository recorded].
    unfold Order.set_status. fold awaiting. rewrite Hupd.
    split; reflexivity.
Qed.

(** With the broker down the order [stored "5,6"], which is RECEIVED, is
    left alone; with the broker up the store is handed it as
    AWAITING_PAYMENT. *)
Lemma C8_witness :
  RequestPaymentUseCase.execute (order_repository outage) (message_broker outage)
    1 []
  = (Raise (ValueError "Erro ao publicar mensagem de pagamento: broker down"),
     [GetById 1;
      Publish "payment_requests"
        (PaymentRequest.mk (Some 1) 100
           (PaymentRequest.mkCustomer (Some "Test User")
              (Some "test@example.com") (Some "12345678901")))]) /\
  RequestPaymentUseCase.execute (order_repository healthy) (message_broker healthy)
    1 []
  = (Ok (Order.mk (Some 1) 100 "5,6" OrderStatus.AWAITING_PAYMENT 0 0
           (Some "Test User") (Some "test@example.com") (Some "12345678901")),
     [GetById 1;
      Publish "payment_requests"
        (PaymentRequest.mk (Some 1) 100
           (PaymentRequest.mkCustomer (Some "Test User")
              (Some "test@example.com") (Some "12345678901")));
      Update (Order.mk (Some 1) 100 "5,6" OrderStatus.AWAITING_PAYMENT 0 0
                (Some "Test User") (Some "test@example.com")
                (Some "12345678901"))]).
Proof.
  split.
  - exact (proj1 (C8_publish_then_await_payment outage 1 [] (stored "5,6") eq_refl)
             (OtherException "broker down") eq_refl).
  - exact (proj1 (proj2 (C8_publish_then_await_payment healthy 1 []
                           (stored "5,6") eq_refl)
                    (Order.mk (Some 1) 100 "5,6" OrderStatus.AWAITING_PAYMENT 0 0
                       (Some "Test User") (Some "test@example.com")
                       (Some "12345678901"))
                    eq_refl eq_refl)).
Defined.

End UseCaseFacts.

Module WorkerFacts.
Import Worker.

Section WithOrderService.
Variable requests_put :
  list event -> string -> Json.value -> string -> result put_response.
Variable order_service : OrderUpdateService.

(** Every status the table maps to is a non-empty string. *)
Lemma mapped_truthy code order_status :
  dict_get status_map code = Some order_status ->
  truthy_str order_status = true.
Proof.
  unfold status_map. cbn [dict_get].
  repeat match goal with
         | |- context [String.eqb ?a code] => destruct (String.eqb a code)
         end;
    intros H; inversion H; reflexivity.
Qed.

(** [update_order_status] always returns.  For a mapped code it has made
    the PUT with the mapped status; for any other code it has done nothing. *)
Lemma update_order_status_mapped order_id code order_status log :
  dict_get status_map code = Some order_status ->
  exists r,
    update_order_status requests_put order_service order_id (Json.Str code) log
    = (Ok r, (log ++ [Put (order_service_url order_service) order_id
                          order_status])%list).
Proof.
  intros Hmap.
  unfold update_order_status, try_except, bind, lift.
  cbn [_map_payment_status_to_order_status]. rewrite Hmap.
  rewrite (mapped_truthy _ _ Hmap). unfold put.
  destruct (requests_put log (order_service_url order_service) order_id
              order_status) as [resp|e].
  - destruct ((put_status_code resp =? 200) || (put_status_code resp =? 201)
              || (put_status_code resp =? 202)).
    + destruct (put_json resp) as [order|e]; cbn.
      * eexists. reflexivity.
      * destruct e; eexists; reflexivity.
    + cbn. eexists. reflexivity.
  - destruct e; cbn; eexists; reflexivity.
Qed.

Lemma update_order_status_unmapped order_id code log :
  dict_get status_map code = None ->
  update_order_status requests_put order_service order_id (Json.Str code) log
  = (Ok Unmapped, log).
Proof.
  intros Hmap.
  unfold update_order_status, try_except, bind, lift.
  cbn [_map_payment_status_to_order_status]. rewrite Hmap. reflexivity.
Qed.

Lemma status_map_empty : dict_get status_map "" = None.
Proof. reflexivity. Qed.

(** A message whose [order_id] or [status] is falsy is acknowledged and
    nothing else is done. *)
Lemma callback_falsy delivery_tag d log :
  (match dict_get d "order_id" with
   | Some v => Json.truthy v
   | None => false
   end
   &&
   match dict_get d "status" with
   | Some v => Json.truthy v
   | None => false
   end) = false ->
  callback requests_put delivery_tag (Json (Json.Dict d)) order_service log
  = (Ok tt, (log ++ [Ack delivery_tag])%list).
Proof.
  intros H. unfold callback, try_except, bind, lift.
  cbn [json_loads Json.get].
  destruct (dict_get d "order_id") as [oid|];
    destruct (dict_get d "status") as [st|]; cbn [Json.truthy] in *.
  - destruct (Json.truthy oid); destruct (Json.truthy st); cbn in *;
      try discriminate; reflexivity.
  - rewrite orb_true_r. reflexivity.
  - reflexivity.
  - reflexivity.
Qed.

Lemma dict_get_remove {V} (k : string) (d : dict V) :
  dict_get (dict_remove k d) k = None.
Proof.
  induction d as [|[k' v] d IH]; cbn; [reflexivity|].
  destruct (String.eqb k' k) eqn:E; [exact IH|]. cbn. rewrite E. exact IH.
Qed.

(** C9, amended. The table is APPROVED→PAID, PENDING→AWAITING_PAYMENT,
    REJECTED→PAYMENT_FAILED, ERROR→PAYMENT_ERROR and nothing else.  For a
    message whose order id is truthy and whose status is the string
    [code]: when the table maps [code], the worker makes one PUT for that
    order id with the mapped status and then acknowledges; when it does
    not, the worker only acknowledges. *)
Theorem C9_mapped_status_is_put_then_acked :
  (dict_get status_map "APPROVED" = Some "PAID" /\
   dict_get status_map "PENDING" = Some "AWAITING_PAYMENT" /\
   dict_get status_map "REJECTED" = Some "PAYMENT_FAILED" /\
   dict_get status_map "ERROR" = Some "PAYMENT_ERROR" /\
   dict_get status_map "BOGUS" = None /\
   forall code,
     code <> "APPROVED" -> code <> "PENDING" -> code <> "REJECTED" ->
     code <> "ERROR" -> dict_get status_map code = None) /\
  forall (delivery_tag : Z) (d : dict Json.value) (order_id : Json.value)
         (code : string) (log : list event),
    dict_get d "order_id" = Some order_id ->
    Json.truthy order_id = true ->
    dict_get d "status" = Some (Json.Str code) ->
    callback requests_put delivery_tag (Json (Json.Dict d)) order_service log
    = (Ok tt,
       match dict_get status_map code with
       | Some order_status =>
           log ++ [Put (order_service_url order_service) order_id order_status;
                   Ack delivery_tag]
       | None => log ++ [Ack delivery_tag]
       end)%list.
Proof.
  split.
  - repeat (split; [reflexivity|]).
    intros code H1 H2 H3 H4. unfold status_map. cbn [dict_get].
    repeat match goal with
           | |- context [String.eqb ?a code] =>
               destruct (String.eqb_spec a code); [congruence|]
           end.
    reflexivity.
  - intros delivery_tag d order_id code log Hid Htruthy Hst.
    destruct (truthy_str code) eqn:Hcode.
    + unfold callback, try_except, bind, lift.
      cbn [json_loads Json.get]. rewrite Hid, Hst, Htruthy.
      cbn [Json.truthy negb orb]. rewrite Hcode. cbn [negb].
      destruct (dict_get status_map code) as [order_status|] eqn:Hmap.
      * destruct (update_order_status_mapped order_id code order_status log Hmap)
          as [r Hr].
        rewrite Hr. unfold basic_ack. rewrite <- app_assoc. reflexivity.
      * rewrite (update_order_status_unmapped order_id code log Hmap).
        reflexivity.
    + destruct code; [|discriminate]. rewrite status_map_empty.
      apply callback_falsy. rewrite Hid, Hst, Htruthy. reflexivity.
Qed.

(** C10. A message whose [order_id] is the integer 0, or whose [status] is
    the empty string, is acknowledged and nothing else is done, exactly
    as for the same message without that field. *)
Theorem C10_falsy_field_is_treated_as_missing :
  forall (delivery_tag : Z) (d : dict Json.value) (log : list event),
    (dict_get d "order_id" = Some (Json.Int 0) ->
     callback requests_put delivery_tag (Json (Json.Dict d)) order_service log
     = (Ok tt, (log ++ [Ack delivery_tag])%list) /\
     callback requests_put delivery_tag
       (Json (Json.Dict (dict_remove "order_id" d))) order_service log
     = (Ok tt, (log ++ [Ack delivery_tag])%list)) /\
    (dict_get d "status" = Some (Json.Str "") ->
     callback requests_put delivery_tag (Json (Json.Dict d)) order_service log
     = (Ok tt, (log ++ [Ack delivery_tag])%list) /\
     callback requests_put delivery_tag
       (Json (Json.Dict (dict_remove "status" d))) order_service log
     = (Ok tt, (log ++ [Ack delivery_tag])%list)).
Proof.
  intros delivery_tag d log. split; intros H; split; apply callback_falsy.
  - rewrite H. reflexivity.
  - rewrite dict_get_remove. reflexivity.
  - rewrite H. apply andb_false_r.
  - rewrite dict_get_remove. apply andb_false_r.
Qed.

End WithOrderService.

Import Samples.

Lemma C9_witness :
  callback accepting 7 (response_message (Json.Int 1) "APPROVED") order_service []
  = (Ok tt, [Put "http://localhost:8003" (Json.Int 1) "PAID"; Ack 7]) /\
  callback accepting 7 (response_message (Json.Int 1) "PENDING") order_service []
  = (Ok tt, [Put "http://localhost:8003" (Json.Int 1) "AWAITING_PAYMENT"; Ack 7]) /\
  callback accepting 7 (response_message (Json.Int 1) "REJECTED") order_service []
  = (Ok tt, [Put "http://localhost:8003" (Json.Int 1) "PAYMENT_FAILED"; Ack 7]) /\
  callback accepting 7 (response_message (Json.Int 1) "BOGUS") order_service []
  = (Ok tt, [Ack 7]).
Proof.
  pose proof (proj2 (C9_mapped_status_is_put_then_acked accepting order_service)) as H.
  split; [|split; [|split]].
  - exact (H 7 [("order_id", Json.Int 1); ("status", Json.Str "APPROVED")]
             (Json.Int 1) "APPROVED" [] eq_refl eq_refl eq_refl).
  - exact (H 7 [("order_id", Json.Int 1); ("status", Json.Str "PENDING")]
             (Json.Int 1) "PENDING" [] eq_refl eq_refl eq_refl).
  - exact (H 7 [("order_id", Json.Int 1); ("status", Json.Str "REJECTED")]
             (Json.Int 1) "REJECTED" [] eq_refl eq_refl eq_refl).
  - exact (H 7 [("order_id", Json.Int 1); ("status", Json.Str "BOGUS")]
             (Json.Int 1) "BOGUS" [] eq_refl eq_refl eq_refl).
Defined.

(** C9 as stated fails for a message that carries the order id 0: its
    status code APPROVED is in the table, and yet the worker makes no PUT. *)
Lemma C9_counterexample :
  Json.get (Json.Dict [("order_id", Json.Int 0); ("status", Json.Str "APPROVED")])
           "order_id" = Ok (Json.Int 0) /\
  dict_get status_map "APPROVED" = Some "PAID" /\
  callback accepting 7 (response_message (Json.Int 0) "APPROVED") order_service []
  = (Ok tt, [Ack 7]) /\
  ~ In (Put "http://localhost:8003" (Json.Int 0) "PAID")
       (snd (callback accepting 7 (response_message (Json.Int 0) "APPROVED")
               order_service [])).
Proof.
  split; [reflexivity|]. split; [reflexivity|]. split; [reflexivity|].
  cbn. intros [H|[]]. discriminate.
Qed.

Lemma C10_witness :
  callback accepting 7 (response_message (Json.Int 0) "APPROVED") order_service []
  = (Ok tt, [Ack 7]) /\
  callback accepting 7
    (Json (Json.Dict [("status", Json.Str "APPROVED")])) order_service []
  = (Ok tt, [Ack 7]) /\
  callback accepting 7 (response_message (Json.Int 1) "") order_service []
  = (Ok tt, [Ack 7]) /\
  callback accepting 7
    (Json (Json.Dict [("order_id", Json.Int 1)])) order_service []
  = (Ok tt, [Ack 7]).
Proof.
  destruct (C10_falsy_field_is_treated_as_missing accepting order_service 7
              [("order_id", Json.Int 0); ("status", Json.Str "APPROVED")] [])
    as [H0 _].
  destruct (C10_falsy_field_is_treated_as_missing accepting order_service 7
              [("order_id", Json.Int 1); ("status", Json.Str "")] [])
    as [_ H1].
  destruct (H0 eq_refl) as [A B]. destruct (H1 eq_refl) as [C D].
  split; [exact A|]. split; [exact B|]. split; [exact C | exact D].
Defined.

End WorkerFacts.

(** * Further properties *)

Module BreakerRunFacts.
Import Breaker BreakerRuns.

Ltac breaker_cases :=
  unfold execute, before_call, after_success, _handle_failure, reset,
    set_state, set_failure_count, set_last_failure_time,
    set_half_open_successes in *;
  cbn [failure_threshold recovery_timeout half_open_calls state failure_count
       last_failure_time half_open_successes] in *.

Section WithWorld.
Context {W A : Type} (clock : W -> Z).

(** One call never touches the configuration of the breaker. *)
Lemma execute_keeps_configuration (f : M W A) self w :
  let self' := fst (snd (execute clock f (self, w))) in
  failure_threshold self' = failure_threshold self /\
  recovery_timeout self' = recovery_timeout self /\
  half_open_calls self' = half_open_calls self.
Proof.
  destruct self as [F T K st fc lft hos]. breaker_cases.
  destruct st; cbn;
    repeat match goal with
           | |- context [if ?b then _ else _] => destruct b; cbn
           | |- context [f w] => destruct (f w) as [[a|e] w']; cbn
           end; auto.
Qed.

(** One call keeps the breaker consistent. *)
Lemma execute_keeps_consistent (f : M W A) self w :
  1 <= failure_threshold self ->
  consistent self ->
  consistent (fst (snd (execute clock f (self, w)))).
Proof.
  destruct self as [F T K st fc lft hos]. unfold consistent. breaker_cases.
  intros HF Hc. destruct st; cbn in *;
    repeat match goal with
           | |- context [?a <? ?b] => destruct (Z.ltb_spec a b); cbn
           | |- context [f w] => destruct (f w) as [[a|e] w']; cbn
           | |- context [?a <=? ?b] => destruct (Z.leb_spec a b); cbn
           end; lia.
Qed.

Lemma execute_all_cons (f : M W A) fs s :
  execute_all clock (f :: fs) s
  = (fst (execute clock f s)
       :: fst (execute_all clock fs (snd (execute clock f s))),
     snd (execute_all clock fs (snd (execute clock f s)))).
Proof.
  cbn [execute_all]. destruct (execute clock f s) as [r s1]. cbn [fst snd].
  destruct (execute_all clock fs s1) as [rs s2]. reflexivity.
Qed.

(** X1. A call made while HALF_OPEN is always let through.  If it returns,
    the success is booked: with the quota reached the breaker is reset to
    CLOSED with both counters at zero, otherwise it stays HALF_OPEN with
    one more success.  If it raises, the breaker goes straight back to
    OPEN, the failure time is recorded, the failure counter is left as it
    was, and the same exception is raised to the caller. *)
Theorem X1_half_open_trial_outcome :
  forall (f : M W A) (self : CircuitBreaker) (w : W),
    state self = HALF_OPEN ->
    (forall a w',
        f w = (Ok a, w') ->
        execute clock f (self, w)
        = (Ok a,
           (if half_open_calls self <=? half_open_successes self + 1
            then mkCircuitBreaker (failure_threshold self)
                   (recovery_timeout self) (half_open_calls self)
                   CLOSED 0 (last_failure_time self) 0
            else mkCircuitBreaker (failure_threshold self)
                   (recovery_timeout self) (half_open_calls self)
                   HALF_OPEN (failure_count self) (last_failure_time self)
                   (half_open_successes self + 1),
            w'))) /\
    (forall e w',
        f w = (Raise e, w') ->
        execute clock f (self, w)
        = (Raise e,
           (mkCircuitBreaker (failure_threshold self) (recovery_timeout self)
              (half_open_calls self) OPEN (failure_count self) (clock w')
              (half_open_successes self),
            w'))).
Proof.
  intros f self w Hst. destruct self as [F T K st fc lft hos].
  cbn in Hst. subst st. breaker_cases. split.
  - intros a w' Hf. rewrite Hf. cbn.
    destruct (K <=? hos + 1); reflexivity.
  - intros e w' Hf. rewrite Hf. reflexivity.
Qed.

(** X2. While the breaker is OPEN and no more than the recovery timeout
    has elapsed, every call of a whole sequence is rejected with
    [CircuitOpenError]; none is run, and breaker and world end as they
    began. *)
Theorem X2_open_rejects_every_call :
  forall (fs : list (M W A)) (self : CircuitBreaker) (w : W),
    state self = OPEN ->
    clock w - last_failure_time self <= recovery_timeout self ->
    execute_all clock fs (self, w)
    = (List.map (fun _ => Raise (CircuitOpenError unavailable)) fs, (self, w)).
Proof.
  intros fs self w Hst Hel. induction fs as [|f fs IH]; [reflexivity|].
  rewrite execute_all_cons.
  assert (H : execute clock f (self, w)
              = (Raise (CircuitOpenError unavailable), (self, w))).
  { unfold execute, before_call. rewrite Hst.
    destruct (Z.ltb_spec (recovery_timeout self)
                (clock w - last_failure_time self)); [lia | reflexivity]. }
  rewrite H. cbn [fst snd]. rewrite IH. reflexivity.
Qed.

Lemma execute_all_keeps_configuration (fs : list (M W A)) :
  forall (self : CircuitBreaker) (w : W),
    let self' := fst (snd (execute_all clock fs (self, w))) in
    failure_threshold self' = failure_threshold self /\
    recovery_timeout self' = recovery_timeout self /\
    half_open_calls self' = half_open_calls self.
Proof.
  induction fs as [|f fs IH]; intros self w; [cbn; auto|].
  cbn zeta. rewrite execute_all_cons. cbn [fst snd].
  destruct (execute clock f (self, w)) as [r [self1 w1]] eqn:He.
  pose proof (execute_keeps_configuration f self w) as H1.
  rewrite He in H1. cbn in H1. cbn [snd].
  pose proof (IH self1 w1) as H2. cbn zeta in H2.
  destruct H1 as (a1 & a2 & a3), H2 as (b1 & b2 & b3).
  repeat split; congruence.
Qed.

(** X3. Whatever calls are made and however they end, the configuration
    of the breaker (threshold, timeout, quota) never changes. *)
Theorem X3_configuration_is_never_changed :
  forall (fs : list (M W A)) (self : CircuitBreaker) (w : W),
    let self' := fst (snd (execute_all clock fs (self, w))) in
    failure_threshold self' = failure_threshold self /\
    recovery_timeout self' = recovery_timeout self /\
    half_open_calls self' = half_open_calls self.
Proof.
  induction fs as [|f fs IH]; intros self w; [cbn; auto|].
  cbn zeta. rewrite execute_all_cons. cbn [fst snd].
  destruct (execute clock f (self, w)) as [r [self1 w1]] eqn:He.
  pose proof (execute_keeps_configuration f self w) as H1.
  rewrite He in H1. cbn in H1. cbn [snd].
  pose proof (IH self1 w1) as H2. cbn zeta in H2.
  destruct H1 as (a1 & a2 & a3), H2 as (b1 & b2 & b3).
  repeat split; congruence.
Qed.

(** X4. Start from a fresh breaker with a threshold of at least 1 and make
    any calls.  Then the breaker is CLOSED exactly when its failure counter
    is below the threshold; the counter never leaves [0, F]; and the
    breaker is HALF_OPEN only with between 1 and K-1 booked successes. *)
Theorem X4_reachable_states_are_consistent :
  forall (F T K : Z) (fs : list (M W A)) (w0 : W),
    1 <= F ->
    let self := fst (snd (execute_all clock fs (new F T K, w0))) in
    (state self = CLOSED <-> failure_count self < F) /\
    0 <= failure_count self <= F /\
    (state self = HALF_OPEN ->
     1 <= half_open_successes self < K).
Proof.
  intros F T K fs w0 HF self.
  assert (Hgen : forall (fs : list (M W A)) (s : CircuitBreaker) (w : W),
             1 <= failure_threshold s -> consistent s ->
             consistent (fst (snd (execute_all clock fs (s, w))))).
  { clear. induction fs as [|f fs IH]; intros s w HF Hc; [exact Hc|].
    rewrite execute_all_cons. cbn [snd].
    destruct (execute clock f (s, w)) as [r [s1 w1]] eqn:He.
    pose proof (execute_keeps_consistent f s w HF Hc) as H1.
    pose proof (execute_keeps_configuration f s w) as H2.
    rewrite He in H1, H2. cbn in H1, H2. cbn [snd].
    apply IH; [lia | exact H1]. }
  assert (Hc : consistent self).
  { apply Hgen; [exact HF | unfold consistent; cbn; lia]. }
  assert (Hthr : failure_threshold self = F).
  { apply (execute_all_keeps_configuration fs (new F T K) w0). }
  assert (HK : half_open_calls self = K).
  { apply (execute_all_keeps_configuration fs (new F T K) w0). }
  unfold consistent in Hc. rewrite Hthr, HK in Hc.
  destruct (state self); repeat split; intros; try discriminate; try lia.
Qed.

(** Calls that return never open the breaker. *)
Lemma returning_run (fs : list (M W A)) :
  forall (self : CircuitBreaker) (w : W),
    state self <> OPEN ->
    all_return fs w ->
    failures (fst (execute_all clock fs (self, w))) = 0 /\
    state (fst (snd (execute_all clock fs (self, w)))) <> OPEN.
Proof.
  induction fs as [|f fs IH]; intros self w Hst Hall.
  - cbn. split; [reflexivity | exact Hst].
  - destruct Hall as (a & w' & Hf & Hrest).
    rewrite execute_all_cons.
    assert (He : execute clock f (self, w) = (Ok a, (after_success self, w'))).
    { unfold execute, before_call. destruct (state self); try congruence;
        rewrite Hf; reflexivity. }
    rewrite He. cbn [fst snd].
    rewrite BreakerFacts.failures_cons. cbn [is_raise].
    assert (Hst' : state (after_success self) <> OPEN).
    { destruct self as [F T K st fc lft hos]. breaker_cases.
      destruct st; cbn in *; try congruence.
      destruct (K <=? hos + 1); cbn; congruence. }
    destruct (IH (after_success self) w' Hst' Hrest) as [H1 H2].
    split; [lia | exact H2].
Qed.

(** A run of returning calls made while HALF_OPEN: short of the quota the
    successes are counted; reaching it closes the breaker. *)
Lemma half_open_run (fs : list (M W A)) :
  forall (self : CircuitBreaker) (w : W),
    state self = HALF_OPEN ->
    all_return fs w ->
    let n := Z.of_nat (List.length fs) in
    let final := fst (snd (execute_all clock fs (self, w))) in
    (half_open_successes self + n < half_open_calls self ->
     final = set_half_open_successes (half_open_successes self + n) self) /\
    (fs <> [] ->
     half_open_successes self + n = half_open_calls self ->
     final = reset self).
Proof.
  induction fs as [|f fs IH]; intros self w Hst Hall n final.
  - subst n final. cbn. split.
    + intros _. destruct self; cbn in *. unfold set_half_open_successes. cbn.
      f_equal. lia.
    + congruence.
  - destruct Hall as (a & w' & Hf & Hrest).
    subst final. rewrite execute_all_cons.
    assert (He : execute clock f (self, w) = (Ok a, (after_success self, w'))).
    { unfold execute, before_call. rewrite Hst, Hf. reflexivity. }
    rewrite He. cbn [fst snd].
    assert (Hn : n = 1 + Z.of_nat (List.length fs)).
    { subst n. cbn [List.length]. lia. }
    destruct (Z.leb_spec (half_open_calls self) (half_open_successes self + 1))
      as [Hq|Hq].
    + split; [intros; lia|].
      intros _ Hsum. destruct fs as [|g fs']; [|cbn [List.length] in Hn; lia].
      cbn. destruct self as [F T K st fc lft hos]. breaker_cases. subst st.
      destruct (Z.leb_spec K (hos + 1)); [reflexivity | lia].
    + assert (Hafter : after_success self
                       = set_half_open_successes (half_open_successes self + 1) self).
      { destruct self as [F T K st fc lft hos]. breaker_cases. subst st.
        destruct (Z.leb_spec K (hos + 1)); [lia | reflexivity]. }
      rewrite Hafter.
      destruct (IH (set_half_open_successes (half_open_successes self + 1) self)
                  w' Hst Hrest) as [IH1 IH2].
      cbn [half_open_successes half_open_calls set_half_open_successes] in IH1, IH2.
      split.
      * intros Hlt. rewrite IH1 by lia.
        destruct self; unfold set_half_open_successes; cbn. f_equal. lia.
      * intros _ Hsum. destruct fs as [|g fs'].
        -- cbn [List.length] in Hn. lia.
        -- rewrite IH2; [| discriminate | lia].
           destruct self; reflexivity.
Qed.

(** X5. Take an OPEN breaker with more than the recovery timeout elapsed,
    and make calls that all return.  All of them are run.  After n calls
    with 1 <= n < K the breaker is HALF_OPEN with n booked successes; after
    exactly K calls (K >= 1) it is CLOSED with the failure counter and the
    half-open counter at zero. *)
Theorem X5_quota_of_successes_closes :
  forall (fs : list (M W A)) (self : CircuitBreaker) (w : W),
    state self = OPEN ->
    recovery_timeout self < clock w - last_failure_time self ->
    all_return fs w ->
    let n := Z.of_nat (List.length fs) in
    let run := execute_all clock fs (self, w) in
    (1 <= n -> failures (fst run) = 0) /\
    (1 <= n < half_open_calls self ->
     fst (snd run)
     = mkCircuitBreaker (failure_threshold self) (recovery_timeout self)
         (half_open_calls self) HALF_OPEN (failure_count self)
         (last_failure_time self) n) /\
    (1 <= n -> n = half_open_calls self ->
     fst (snd run)
     = mkCircuitBreaker (failure_threshold self) (recovery_timeout self)
         (half_open_calls self) CLOSED 0 (last_failure_time self) 0).
Proof.
  intros fs self w Hst Hel Hall n run.
  destruct fs as [|f fs].
  { subst n. cbn. repeat split; intros; lia. }
  set (trial := set_half_open_successes 0 (set_state HALF_OPEN self)).
  assert (Hsame : run = execute_all clock (f :: fs) (trial, w)).
  { subst run. rewrite !execute_all_cons.
    assert (He : execute clock f (self, w) = execute clock f (trial, w)).
    { unfold execute, before_call. rewrite Hst.
      destruct (Z.ltb_spec (recovery_timeout self)
                  (clock w - last_failure_time self)); [|lia].
      reflexivity. }
    rewrite He. reflexivity. }
  rewrite Hsame.
  assert (Htrial : state trial = HALF_OPEN) by reflexivity.
  destruct (returning_run (f :: fs) trial w ltac:(rewrite Htrial; discriminate) Hall)
    as [Hfail _].
  destruct (half_open_run (f :: fs) trial w Htrial Hall) as [H1 H2].
  fold n in H1, H2.
  cbn [trial half_open_successes half_open_calls set_half_open_successes
       set_state] in H1, H2.
  split; [intros _; exact Hfail|]. split.
  - intros Hn. rewrite H1 by lia. destruct self; reflexivity.
  - intros Hn Heq. rewrite H2; [| discriminate | lia].
    destruct self; reflexivity.
Qed.

End WithWorld.

Import Samples MoreSamples.

Lemma X1_witness :
  execute wall returns_7 (probing, 5)
  = (Ok 7, (mkCircuitBreaker 3 30 2 CLOSED 0 100 0, 6)) /\
  execute wall raises_boom (probing, 5)
  = (Raise (OtherException "boom"), (mkCircuitBreaker 3 30 2 OPEN 3 6 1, 6)).
Proof.
  split.
  - exact (proj1 (X1_half_open_trial_outcome wall returns_7 probing 5 eq_refl)
             7 6 eq_refl).
  - exact (proj2 (X1_half_open_trial_outcome wall raises_boom probing 5 eq_refl)
             (OtherException "boom") 6 eq_refl).
Defined.

Lemma X2_witness :
  execute_all wall [returns_7; raises_boom] (tripped, 130)
  = ([Raise (CircuitOpenError unavailable); Raise (CircuitOpenError unavailable)],
     (tripped, 130)).
Proof.
  exact (X2_open_rejects_every_call wall [returns_7; raises_boom] tripped 130
           eq_refl ltac:(cbn; lia)).
Defined.

Lemma X4_witness :
  state (fst (snd (execute_all wall [raises_boom; raises_boom; returns_7]
                     (new 2 30 1, 5)))) = OPEN /\
  0 <= failure_count
         (fst (snd (execute_all wall [raises_boom; raises_boom; returns_7]
                      (new 2 30 1, 5)))) <= 2.
Proof.
  split; [reflexivity|].
  exact (proj1 (proj2 (X4_reachable_states_are_consistent wall 2 30 1
                         [raises_boom; raises_boom; returns_7] 5
                         ltac:(lia)))).
Defined.

Lemma X5_witness :
  fst (snd (execute_all wall [returns_7; returns_7] (tripped_quota_2, 131)))
  = mkCircuitBreaker 3 30 2 CLOSED 0 100 0.
Proof.
  assert (Hall : all_return [returns_7; returns_7] 131).
  { cbn. eexists _, _. split; [reflexivity|].
    eexists _, _. split; [reflexivity | exact I]. }
  exact (proj2 (proj2 (X5_quota_of_successes_closes wall [returns_7; returns_7]
                         tripped_quota_2 131 eq_refl ltac:(cbn; lia) Hall))
           ltac:(cbn; lia) eq_refl).
Defined.

End BreakerRunFacts.


Module GatewayMoreFacts.
Import Breaker.

Lemma raise_for_status_ok {B} (response : Response B) :
  is_success (status_code response) -> raise_for_status response = Ok tt.
Proof.
  unfold is_success, raise_for_status. intros [H1 H2].
  destruct (Z.leb_spec 200 (status_code response)); [|lia].
  destruct (Z.leb_spec (status_code response) 299); [reflexivity | lia].
Qed.

Lemma raise_for_status_error {B} (response : Response B) :
  ~ is_success (status_code response) ->
  raise_for_status response
  = Raise (HTTPStatusError (status_code response) (text response)).
Proof.
  unfold is_success, raise_for_status. intros H.
  destruct (Z.leb_spec 200 (status_code response));
    destruct (Z.leb_spec (status_code response) 299); cbn; try reflexivity.
  lia.
Qed.

Lemma raise_for_status_inv {B} (response : Response B) :
  raise_for_status response = Ok tt -> is_success (status_code response).
Proof.
  unfold is_success, raise_for_status.
  destruct (Z.leb_spec 200 (status_code response));
    destruct (Z.leb_spec (status_code response) 299); cbn; try discriminate.
  intros _. lia.
Qed.

Lemma lookup_some all_products pid p :
  HttpProductGateway.lookup all_products pid = Some p ->
  In p all_products /\ Product.id p = pid.
Proof.
  unfold HttpProductGateway.lookup. intros H.
  apply find_some in H. destruct H as [Hin Heq].
  split; [exact Hin | now apply Z.eqb_eq].
Qed.

(** X6. When [get_products] of the HTTP gateway returns, the answer of the
    products service was a 2xx with a catalogue; the list returned has one
    entry per requested id, in the order of the request (repeated ids
    repeat the entry), each taken from the catalogue and carrying the
    requested id; and exactly one request was made. *)
Theorem X6_get_products_answers_in_request_order :
  forall (self : HttpProductGateway.t) (ids : list Z) (w : World)
         (products : list Product.t) (w' : World),
    HttpProductGateway.get_products self ids w = (Ok products, w') ->
    (exists code body catalogue,
        products_service w (products_requests w)
          = Ok (mkResponse code body (Ok catalogue)) /\
        is_success code /\
        Forall2 (fun pid p => In p catalogue /\ Product.id p = pid) ids products) /\
    w' = one_more_products_request w.
Proof.
  intros self ids w products w'.
  unfold HttpProductGateway.get_products, try_except, bind, lift,
    client_get_products.
  destruct (products_service w (products_requests w)) as [resp|e] eqn:Hsvc;
    [|unfold raise; discriminate].
  destruct (raise_for_status resp) as [[]|e] eqn:Hst; [|unfold raise; discriminate].
  destruct (json resp) as [catalogue|e] eqn:Hjson; [|unfold raise; discriminate].
  destruct (HttpProductGateway.collect catalogue ids) as [ps|e] eqn:Hc;
    [|unfold raise; discriminate].
  intros H. inversion H; subst. split; [|reflexivity].
  destruct resp as [code body j]. cbn in Hjson. subst j.
  exists code, body, catalogue. split; [reflexivity|].
  split; [exact (raise_for_status_inv _ Hst)|].
  apply GatewayFacts.collect_ok in Hc. clear - Hc.
  induction Hc as [|pid p ids' ps' Hl _ IH]; [constructor|].
  constructor; [now apply lookup_some | exact IH].
Qed.

(** X7. Every way the request can go wrong gives a [ValueError] whose text
    tells the cause, whatever ids are asked for, the empty list included:
    a status outside 2xx, a connection failure, a timeout, a body that is
    not JSON. *)
Theorem X7_http_failures_become_value_errors :
  forall (self : HttpProductGateway.t) (ids : list Z) (w : World),
    (forall code body j,
        products_service w (products_requests w)
          = Ok (mkResponse code body j) ->
        ~ is_success code ->
        HttpProductGateway.get_products self ids w
        = (Raise (ValueError ("Error fetching products: " ++ str_int code
                              ++ ": " ++ body)),
           one_more_products_request w)) /\
    (forall m,
        products_service w (products_requests w) = Raise (ConnectError m) ->
        HttpProductGateway.get_products self ids w
        = (Raise (ValueError ("Cannot connect to products service at "
                              ++ HttpProductGateway.base_url self
                              ++ ". Is it running?")),
           one_more_products_request w)) /\
    (forall m,
        products_service w (products_requests w) = Raise (TimeoutException m) ->
        HttpProductGateway.get_products self ids w
        = (Raise (ValueError "Request to products service timed out"),
           one_more_products_request w)) /\
    (forall code body m,
        products_service w (products_requests w)
          = Ok (mkResponse code body (Raise (JSONDecodeError m))) ->
        is_success code ->
        HttpProductGateway.get_products self ids w
        = (Raise (ValueError ("Failed to communicate with products service: "
                              ++ m)),
           one_more_products_request w)).
Proof.
  intros self ids w.
  unfold HttpProductGateway.get_products, try_except, bind, lift,
    client_get_products.
  repeat split.
  - intros code body j Hsvc Hcode. rewrite Hsvc.
    rewrite (raise_for_status_error (mkResponse code body j) Hcode). reflexivity.
  - intros m Hsvc. rewrite Hsvc. reflexivity.
  - intros m Hsvc. rewrite Hsvc. reflexivity.
  - intros code body m Hsvc Hcode. rewrite Hsvc.
    rewrite (raise_for_status_ok
               (mkResponse code body (Raise (JSONDecodeError m))) Hcode).
    reflexivity.
Qed.

(** X8. Asking for one product through [get_products] is the same as asking
    for it through [get_product]: the same entry in a one-element list, or
    the same [ValueError], and the same single request. *)
Theorem X8_get_product_is_get_products_of_one :
  forall (self : HttpProductGateway.t) (product_id : Z) (w : World),
    HttpProductGateway.get_products self [product_id] w
    = (match fst (HttpProductGateway.get_product self product_id w) with
       | Ok product => Ok [product]
       | Raise e => Raise e
       end,
       snd (HttpProductGateway.get_product self product_id w)).
Proof.
  intros self pid w.
  unfold HttpProductGateway.get_products, HttpProductGateway.get_product,
    try_except, bind, lift, client_get_products.
  destruct (products_service w (products_requests w)) as [resp|e];
    [|reflexivity].
  destruct (raise_for_status resp) as [[]|e]; [|reflexivity].
  destruct (json resp) as [catalogue|e]; [|reflexivity].
  cbn [HttpProductGateway.collect].
  destruct (HttpProductGateway.lookup catalogue pid); reflexivity.
Qed.

(** X9. A request for a product the catalogue does not have counts as a
    failure of the products service.  Made through a CLOSED breaker that is
    one failure short of its threshold, it raises the "not found"
    [ValueError] and opens the breaker; after that (the timeout not being
    negative) any request, also one for products the catalogue has, is
    refused with the "unavailable" [ValueError] without the service being
    asked. *)
Theorem X9_unknown_product_can_open_the_breaker :
  forall (self : CircuitBreakerProductGateway.t) (cb : CircuitBreaker)
         (w : World) (code : Z) (body : string) (catalogue : list Product.t)
         (product_id : Z),
    state cb = CLOSED ->
    failure_threshold cb <= failure_count cb + 1 ->
    0 <= recovery_timeout cb ->
    products_service w (products_requests w)
      = Ok (mkResponse code body (Ok catalogue)) ->
    is_success code ->
    (forall p, In p catalogue -> Product.id p <> product_id) ->
    let opened :=
      mkCircuitBreaker (failure_threshold cb) (recovery_timeout cb)
        (half_open_calls cb) OPEN (failure_count cb + 1) (clock w)
        (half_open_successes cb) in
    CircuitBreakerProductGateway.get_product self product_id (cb, w)
    = (Raise (ValueError ("Failed to communicate with products service: "
                          ++ HttpProductGateway.not_found product_id)),
       (opened, one_more_products_request w)) /\
    forall ids,
      CircuitBreakerProductGateway.get_products self ids
        (opened, one_more_products_request w)
      = (Raise (ValueError CircuitBreakerProductGateway.product_unavailable),
         (opened, one_more_products_request w)).
Proof.
  intros self cb w code body catalogue pid Hst Hthr HT Hsvc Hcode Habs opened.
  assert (Hget :
    HttpProductGateway.get_product
      (CircuitBreakerProductGateway.http_gateway self) pid w
    = (Raise (ValueError ("Failed to communicate with products service: "
                          ++ HttpProductGateway.not_found pid)),
       one_more_products_request w)).
  { unfold HttpProductGateway.get_product, try_except, bind, lift,
      client_get_products.
    rewrite Hsvc. rewrite (raise_for_status_ok
                             (mkResponse code body (Ok catalogue)) Hcode).
    cbn [json]. rewrite (GatewayFacts.lookup_none _ _ Habs). reflexivity. }
  split.
  - unfold CircuitBreakerProductGateway.get_product, try_except.
    rewrite (BreakerFacts.execute_closed_failure clock _ cb w _ _ Hst Hget).
    cbn [clock one_more_products_request].
    destruct (Z.leb_spec (failure_threshold cb) (failure_count cb + 1)); [|lia].
    reflexivity.
  - intros ids.
    unfold CircuitBreakerProductGateway.get_products, try_except, execute,
      before_call.
    cbn [state opened recovery_timeout last_failure_time clock
         one_more_products_request].
    destruct (Z.ltb_spec (recovery_timeout cb) (clock w - clock w)); [lia|].
    reflexivity.
Qed.

Lemma http_get_user_404 self cpf w body j :
  users_service w cpf (users_requests w) = Ok (mkResponse 404 body j) ->
  HttpUserGateway.get_user_by_cpf self cpf w
  = (Ok None, one_more_users_request w).
Proof.
  intros Hsvc.
  unfold HttpUserGateway.get_user_by_cpf, try_except, bind, client_get_user.
  rewrite Hsvc. reflexivity.
Qed.

Lemma http_get_user_error self cpf w code body j :
  users_service w cpf (users_requests w) = Ok (mkResponse code body j) ->
  code <> 404 ->
  ~ is_success code ->
  HttpUserGateway.get_user_by_cpf self cpf w
  = (Raise (ValueError ("Error fetching user with CPF " ++ cpf ++ ": "
                        ++ str_int code ++ ": " ++ body)),
     one_more_users_request w).
Proof.
  intros Hsvc H404 Hcode.
  unfold HttpUserGateway.get_user_by_cpf, try_except, bind, lift, client_get_user.
  rewrite Hsvc. cbn [status_code].
  destruct (Z.eqb_spec code 404); [congruence|].
  rewrite (raise_for_status_error (mkResponse code body j) Hcode). reflexivity.
Qed.

(** X10. Through the breaker-wrapped user gateway a 404 and a failing
    status (outside 2xx, not 404) look the same to the caller, [None], but
    not to the breaker: made while CLOSED, the 404 leaves the breaker as it
    is, the failing status is counted as a failure (and opens the breaker
    when the count gets to the threshold). *)
Theorem X10_user_404_is_not_a_failure :
  forall (self : CircuitBreakerUserGateway.t) (cpf : string)
         (cb : CircuitBreaker) (w : World),
    state cb = CLOSED ->
    (forall body j,
        users_service w cpf (users_requests w) = Ok (mkResponse 404 body j) ->
        CircuitBreakerUserGateway.get_user_by_cpf self cpf (cb, w)
        = (Ok None, (cb, one_more_users_request w))) /\
    (forall code body j,
        users_service w cpf (users_requests w) = Ok (mkResponse code body j) ->
        code <> 404 ->
        ~ is_success code ->
        CircuitBreakerUserGateway.get_user_by_cpf self cpf (cb, w)
        = (Ok None,
           (mkCircuitBreaker (failure_threshold cb) (recovery_timeout cb)
              (half_open_calls cb)
              (if failure_threshold cb <=? failure_count cb + 1
               then OPEN else CLOSED)
              (failure_count cb + 1) (clock w) (half_open_successes cb),
            one_more_users_request w))).
Proof.
  intros self cpf cb w Hst. split.
  - intros body j Hsvc.
    unfold CircuitBreakerUserGateway.get_user_by_cpf, try_except.
    rewrite (BreakerFacts.execute_closed_success clock _ cb w None
               (one_more_users_request w) Hst
               (http_get_user_404 _ cpf w body j Hsvc)).
    reflexivity.
  - intros code body j Hsvc H404 Hcode.
    unfold CircuitBreakerUserGateway.get_user_by_cpf, try_except.
    rewrite (BreakerFacts.execute_closed_failure clock _ cb w _
               (one_more_users_request w) Hst
               (http_get_user_error _ cpf w code body j Hsvc H404 Hcode)).
    reflexivity.
Qed.

(** X11. While its breaker is OPEN with no more than the recovery timeout
    elapsed, the breaker-wrapped user gateway answers [None] at once: the
    users service is not asked, and breaker and world stay as they are. *)
Theorem X11_open_user_breaker_answers_none :
  forall (self : CircuitBreakerUserGateway.t) (cpf : string)
         (cb : CircuitBreaker) (w : World),
    state cb = OPEN ->
    clock w - last_failure_time cb <= recovery_timeout cb ->
    CircuitBreakerUserGateway.get_user_by_cpf self cpf (cb, w)
    = (Ok None, (cb, w)).
Proof.
  intros self cpf cb w Hst Hel.
  unfold CircuitBreakerUserGateway.get_user_by_cpf, try_except, execute,
    before_call.
  rewrite Hst.
  destruct (Z.ltb_spec (recovery_timeout cb) (clock w - last_failure_time cb));
    [lia | reflexivity].
Qed.

(** X12. The HTTP user gateway returns a user only when the users service
    answered 2xx with that user as its JSON body; it makes exactly one
    request. *)
Theorem X12_user_is_what_the_service_sent :
  forall (self : HttpUserGateway.t) (cpf : string) (w : World)
         (user : User) (w' : World),
    HttpUserGateway.get_user_by_cpf self cpf w = (Ok (Some user), w') ->
    (exists code body,
        users_service w cpf (users_requests w)
          = Ok (mkResponse code body (Ok (Some user))) /\
        is_success code) /\
    w' = one_more_users_request w.
Proof.
  intros self cpf w user w'.
  unfold HttpUserGateway.get_user_by_cpf, try_except, bind, lift, client_get_user.
  destruct (users_service w cpf (users_requests w)) as [resp|e] eqn:Hsvc;
    [|unfold raise; discriminate].
  destruct (status_code resp =? 404); [unfold ret; discriminate|].
  destruct (raise_for_status resp) as [[]|e] eqn:Hst; [|unfold raise; discriminate].
  destruct (json resp) as [u|e] eqn:Hjson; [|unfold raise; discriminate].
  unfold ret. intros H. inversion H; subst. split; [|reflexivity].
  destruct resp as [code body j]. cbn in Hjson. subst j.
  exists code, body. split; [reflexivity | exact (raise_for_status_inv _ Hst)].
Qed.

Import Samples MoreSamples.

Lemma X6_witness :
  (exists code body catalogue,
      products_service world (products_requests world)
        = Ok (mkResponse code body (Ok catalogue)) /\
      is_success code /\
      Forall2 (fun pid p => In p catalogue /\ Product.id p = pid)
              [2; 1; 2] [cake; coffee; cake]) /\
  one_more_products_request world = one_more_products_request world.
Proof.
  exact (X6_get_products_answers_in_request_order http_products [2; 1; 2] world
           [cake; coffee; cake] (one_more_products_request world) eq_refl).
Defined.

Lemma X7_witness :
  HttpProductGateway.get_products http_products [] products_unreachable
  = (Raise (ValueError
       "Cannot connect to products service at http://localhost:8002. Is it running?"),
     one_more_products_request products_unreachable).
Proof.
  exact (proj1 (proj2 (X7_http_failures_become_value_errors http_products []
                         products_unreachable))
           "connection refused" eq_refl).
Defined.

Lemma X9_witness :
  CircuitBreakerProductGateway.get_product
    (CircuitBreakerProductGateway.mk http_products) 3 (strained, world)
  = (Raise (ValueError
       "Failed to communicate with products service: Product with ID 3 not found"),
     (mkCircuitBreaker 3 15 1 OPEN 3 0 0, one_more_products_request world)) /\
  CircuitBreakerProductGateway.get_products
    (CircuitBreakerProductGateway.mk http_products) [1; 2]
    (mkCircuitBreaker 3 15 1 OPEN 3 0 0, one_more_products_request world)
  = (Raise (ValueError CircuitBreakerProductGateway.product_unavailable),
     (mkCircuitBreaker 3 15 1 OPEN 3 0 0, one_more_products_request world)).
Proof.
  assert (Habs : forall p, In p [coffee; cake] -> Product.id p <> 3).
  { intros p [<-|[<-|[]]]; cbn; lia. }
  destruct (X9_unknown_product_can_open_the_breaker
              (CircuitBreakerProductGateway.mk http_products) strained world
              200 "" [coffee; cake] 3 eq_refl ltac:(cbn; lia) ltac:(cbn; lia)
              eq_refl ltac:(unfold is_success; lia) Habs) as [H1 H2].
  split; [exact H1 | exact (H2 [1; 2])].
Defined.

Lemma X10_witness :
  CircuitBreakerUserGateway.get_user_by_cpf
    (CircuitBreakerUserGateway.mk http_users) "12345678901" (strained, users_404)
  = (Ok None, (strained, one_more_users_request users_404)) /\
  CircuitBreakerUserGateway.get_user_by_cpf
    (CircuitBreakerUserGateway.mk http_users) "12345678901" (strained, users_500)
  = (Ok None,
     (mkCircuitBreaker 3 15 1 OPEN 3 0 0, one_more_users_request users_500)).
Proof.
  split.
  - exact (proj1 (X10_user_404_is_not_a_failure
                    (CircuitBreakerUserGateway.mk http_users) "12345678901"
                    strained users_404 eq_refl)
             "not found" (Ok None) eq_refl).
  - exact (proj2 (X10_user_404_is_not_a_failure
                    (CircuitBreakerUserGateway.mk http_users) "12345678901"
                    strained users_500 eq_refl)
             500 "internal error" (Ok None) eq_refl
             ltac:(lia) ltac:(unfold is_success; lia)).
Defined.

Lemma X11_witness :
  CircuitBreakerUserGateway.get_user_by_cpf
    (CircuitBreakerUserGateway.mk http_users) "12345678901" (tripped, later)
  = (Ok None, (tripped, later)).
Proof.
  exact (X11_open_user_breaker_answers_none
           (CircuitBreakerUserGateway.mk http_users) "12345678901" tripped later
           eq_refl ltac:(cbn; lia)).
Defined.

Lemma X12_witness :
  (exists code body,
      users_service users_know_ana "12345678901" (users_requests users_know_ana)
        = Ok (mkResponse code body (Ok (Some ana))) /\
      is_success code) /\
  one_more_users_request users_know_ana = one_more_users_request users_know_ana.
Proof.
  exact (X12_user_is_what_the_service_sent http_users "12345678901"
           users_know_ana ana (one_more_users_request users_know_ana) eq_refl).
Defined.

End GatewayMoreFacts.

Module FactoryFacts.
Import Breaker ProductGatewayFactory.

(** X13. The factory compares the resilience mode without regard to case.
    Only ["none"] gives the plain HTTP gateway, and then the shared breaker
    is not touched.  Every other mode, ["circuit_breaker"] or not, gives the
    breaker-wrapped gateway; the shared breaker is created from the
    parameters only if there is none yet, and an existing one is kept with
    its state and configuration, the parameters being ignored. *)
Theorem X13_factory_modes_and_shared_breaker :
  forall (env : string -> option string) (resilience_mode : option string)
         (F T K : Z) (cls : option CircuitBreaker),
    let mode :=
      lower (match resilience_mode with
             | Some m => m
             | None => getenv env "PRODUCT_GATEWAY_RESILIENCE" "circuit_breaker"
             end) in
    (mode = "none" ->
     create env resilience_mode F T K cls = (Plain (http_init env), cls)) /\
    (mode <> "none" ->
     create env resilience_mode F T K cls
     = (Resilient (CircuitBreakerProductGateway.mk (http_init env)),
        Some (match cls with
              | Some shared => shared
              | None => new F T K
              end))).
Proof.
  intros env resilience_mode F T K cls mode. unfold create. fold mode.
  split.
  - intros ->. reflexivity.
  - intros Hne. destruct (String.eqb_spec mode "none") as [E|_]; [contradiction|].
    unfold circuit_breaker_init.
    destruct (String.eqb mode "circuit_breaker"); destruct cls; reflexivity.
Qed.

Lemma X13_witness :
  create (fun _ => None) (Some "NoNe") 5 30 1 (Some Samples.tripped)
  = (Plain (HttpProductGateway.mk "http://localhost:8002"), Some Samples.tripped) /\
  create (fun _ => None) (Some "resilient") 5 30 1 (Some Samples.tripped)
  = (Resilient (CircuitBreakerProductGateway.mk
                  (HttpProductGateway.mk "http://localhost:8002")),
     Some Samples.tripped) /\
  create (fun _ => None) None 5 30 1 None
  = (Resilient (CircuitBreakerProductGateway.mk
                  (HttpProductGateway.mk "http://localhost:8002")),
     Some (new 5 30 1)).
Proof.
  split; [|split].
  - exact (proj1 (X13_factory_modes_and_shared_breaker (fun _ => None)
                    (Some "NoNe") 5 30 1 (Some Samples.tripped)) eq_refl).
  - exact (proj2 (X13_factory_modes_and_shared_breaker (fun _ => None)
                    (Some "resilient") 5 30 1 (Some Samples.tripped))
             ltac:(discriminate)).
  - exact (proj2 (X13_factory_modes_and_shared_breaker (fun _ => None)
                    None 5 30 1 None) ltac:(discriminate)).
Defined.

End FactoryFacts.

Module UseCaseMoreFacts.
Import Mock.

(** X14. Creation stops before the store is asked to save anything when
    the product gateway raises (whatever the exception), and also when the
    customer lookup raises something that is neither a [ValueError] nor of
    a subclass of it: the exception goes to the caller as it is. *)
Theorem X14_create_aborts_before_saving :
  forall (sc : script) (order_data : OrderCreate.t) (log : list call),
    let ids := OrderCreate.product_ids order_data in
    let log1 := (log ++ [GetProducts ids])%list in
    (forall e,
        on_get_products sc log ids = Raise e ->
        CreateOrderUseCase.execute (order_repository sc) (product_gateway sc)
          (user_gateway sc) (datetime_now sc) order_data log
        = (Raise e, log1)) /\
    (forall products c e,
        on_get_products sc log ids = Ok products ->
        OrderCreate.cpf order_data = Some c ->
        truthy_str c = true ->
        on_get_user_by_cpf sc log1 c = Raise e ->
        is_ValueError e = false ->
        CreateOrderUseCase.execute (order_repository sc) (product_gateway sc)
          (user_gateway sc) (datetime_now sc) order_data log
        = (Raise e, (log1 ++ [GetUserByCpf c])%list)).
Proof.
  intros sc order_data log ids log1. split.
  - intros e Hprod.
    unfold CreateOrderUseCase.execute, bind.
    cbn [ProductGateway.get_products product_gateway recorded].
    fold ids. rewrite Hprod. reflexivity.
  - intros products c e Hprod Hcpf Hc Huser Hnot.
    unfold CreateOrderUseCase.execute, bind.
    cbn [ProductGateway.get_products product_gateway recorded].
    fold ids. rewrite Hprod. fold log1.
    unfold CreateOrderUseCase.lookup_user. rewrite Hcpf, Hc.
    unfold try_except_ValueError, try_except, bind.
    cbn [UserGateway.get_user_by_cpf user_gateway recorded].
    rewrite Huser, Hnot. reflexivity.
Qed.

(** X15. When the customer lookup finds a user, the order handed to the
    store carries the user's [username] and [email] as its name and e-mail
    snapshot (and no CPF), and the response carries them as [user_info].
    The total is the prices added as floats, from 0 and in the order of
    the list. *)
Theorem X15_create_snapshots_the_customer :
  forall (sc : script) (order_data : OrderCreate.t) (log : list call)
         (products : list Product.t) (c : string) (u : User)
         (saved : Order.t) (i : Z),
    let ids := OrderCreate.product_ids order_data in
    let log1 := (log ++ [GetProducts ids])%list in
    let log2 := (log1 ++ [GetUserByCpf c])%list in
    let order :=
      Order.mk None
               (List.fold_left PrimFloat.add (List.map Product.price products)
                               0%float)
               (join "," (List.map str_int ids))
               OrderStatus.RECEIVED (on_now sc log2) (on_now sc log2)
               (dict_get u "username") (dict_get u "email") None in
    on_get_products sc log ids = Ok products ->
    OrderCreate.cpf order_data = Some c ->
    truthy_str c = true ->
    on_get_user_by_cpf sc log1 c = Ok (Some u) ->
    truthy_dict u = true ->
    on_add sc log2 order = Ok saved ->
    Order.id saved = Some i ->
    CreateOrderUseCase.execute (order_repository sc) (product_gateway sc)
      (user_gateway sc) (datetime_now sc) order_data log
    = (Ok (OrderPublic.mk i (Order.total_price saved) (Order.status saved)
             (List.map ProductDetail.of_product products)
             (Some [("name", dict_get u "username");
                    ("email", dict_get u "email")])),
       (log2 ++ [Add order])%list).
Proof.
  intros sc order_data log products c u saved i ids log1 log2 order
         Hprod Hcpf Hc Huser Hu Hadd Hid.
  unfold CreateOrderUseCase.execute, bind.
  cbn [ProductGateway.get_products product_gateway recorded].
  fold ids. rewrite Hprod. fold log1.
  unfold CreateOrderUseCase.lookup_user. rewrite Hcpf, Hc.
  unfold try_except_ValueError, try_except, bind.
  cbn [UserGateway.get_user_by_cpf user_gateway recorded].
  fold log2. rewrite UseCaseFacts.sum_prices. rewrite Huser, Hu.
  unfold ret, datetime_now, lift. cbn.
  fold log2 order. rewrite Hadd, Hid. reflexivity.
Qed.

(** X16. Without a CPF ([None] or the empty string) the customer service
    is not asked at all: after the product lookup the order goes straight
    to the store, without customer fields; its total is the prices added
    as floats, from 0 and in the order of the list. *)
Theorem X16_create_without_cpf_skips_the_lookup :
  forall (sc : script) (order_data : OrderCreate.t) (log : list call)
         (products : list Product.t) (saved : Order.t) (i : Z),
    let ids := OrderCreate.product_ids order_data in
    let log1 := (log ++ [GetProducts ids])%list in
    let order :=
      Order.mk None
               (List.fold_left PrimFloat.add (List.map Product.price products)
                               0%float)
               (join "," (List.map str_int ids))
               OrderStatus.RECEIVED (on_now sc log1) (on_now sc log1)
               None None None in
    on_get_products sc log ids = Ok products ->
    truthy_opt_str (OrderCreate.cpf order_data) = false ->
    on_add sc log1 order = Ok saved ->
    Order.id saved = Some i ->
    CreateOrderUseCase.execute (order_repository sc) (product_gateway sc)
      (user_gateway sc) (datetime_now sc) order_data log
    = (Ok (OrderPublic.mk i (Order.total_price saved) (Order.status saved)
             (List.map ProductDetail.of_product products) None),
       (log1 ++ [Add order])%list).
Proof.
  intros sc order_data log products saved i ids log1 order Hprod Hcpf Hadd Hid.
  unfold CreateOrderUseCase.execute, bind.
  cbn [ProductGateway.get_products product_gateway recorded].
  fold ids. rewrite Hprod. fold log1. rewrite UseCaseFacts.sum_prices.
  unfold CreateOrderUseCase.lookup_user.
  destruct (OrderCreate.cpf order_data) as [c|]; cbn in Hcpf.
  - rewrite Hcpf. unfold ret, CreateOrderUseCase.no_user, datetime_now, lift. cbn.
    fold log1 order. rewrite Hadd, Hid. reflexivity.
  - unfold ret, CreateOrderUseCase.no_user, datetime_now, lift. cbn.
    fold log1 order. rewrite Hadd, Hid. reflexivity.
Qed.

Import Samples MoreSamples.

Lemma X14_witness :
  CreateOrderUseCase.execute (order_repository outage) (product_gateway outage)
    (user_gateway outage) (datetime_now outage)
    (OrderCreate.mk [1; 2] (Some "12345678901")) []
  = (Raise (ValueError "Product service is currently unavailable."),
     [GetProducts [1; 2]]) /\
  CreateOrderUseCase.execute (order_repository broken_customers)
    (product_gateway broken_customers) (user_gateway broken_customers)
    (datetime_now broken_customers)
    (OrderCreate.mk [1; 2] (Some "12345678901")) []
  = (Raise (OtherException "boom"),
     [GetProducts [1; 2]; GetUserByCpf "12345678901"]).
Proof.
  split.
  - exact (proj1 (X14_create_aborts_before_saving outage
                    (OrderCreate.mk [1; 2] (Some "12345678901")) [])
             (ValueError "Product service is currently unavailable.") eq_refl).
  - exact (proj2 (X14_create_aborts_before_saving broken_customers
                    (OrderCreate.mk [1; 2] (Some "12345678901")) [])
             [coffee; cake] "12345678901" (OtherException "boom")
             eq_refl eq_refl eq_refl eq_refl eq_refl).
Defined.

Lemma X15_witness :
  CreateOrderUseCase.execute (order_repository with_customer)
    (product_gateway with_customer) (user_gateway with_customer)
    (datetime_now with_customer)
    (OrderCreate.mk [1; 2] (Some "12345678901")) []
  = (Ok (OrderPublic.mk 1 30 OrderStatus.RECEIVED
           [ProductDetail.mk 1 "coffee" 10; ProductDetail.mk 2 "cake" 20]
           (Some [("name", Some "ana"); ("email", Some "ana@example.com")])),
     [GetProducts [1; 2]; GetUserByCpf "12345678901";
      Add (Order.mk None 30 "1,2" OrderStatus.RECEIVED 0 0
             (Some "ana") (Some "ana@example.com") None)]).
Proof.
  exact (X15_create_snapshots_the_customer with_customer
           (OrderCreate.mk [1; 2] (Some "12345678901")) [] [coffee; cake]
           "12345678901" ana
           (Order.mk (Some 1) 30 "1,2" OrderStatus.RECEIVED 0 0
              (Some "ana") (Some "ana@example.com") None) 1
           eq_refl eq_refl eq_refl eq_refl eq_refl eq_refl eq_refl).
Defined.

Lemma X16_witness :
  CreateOrderUseCase.execute (order_repository healthy) (product_gateway healthy)
    (user_gateway healthy) (datetime_now healthy)
    (OrderCreate.mk [1; 2] (Some "")) []
  = (Ok (OrderPublic.mk 1 30 OrderStatus.RECEIVED
           [ProductDetail.mk 1 "coffee" 10; ProductDetail.mk 2 "cake" 20] None),
     [GetProducts [1; 2];
      Add (Order.mk None 30 "1,2" OrderStatus.RECEIVED 0 0 None None None)]).
Proof.
  exact (X16_create_without_cpf_skips_the_lookup healthy
           (OrderCreate.mk [1; 2] (Some "")) [] [coffee; cake]
           (Order.mk (Some 1) 30 "1,2" OrderStatus.RECEIVED 0 0 None None None) 1
           eq_refl eq_refl eq_refl eq_refl).
Defined.

End UseCaseMoreFacts.

Module ProductIdsFacts.

Lemma split_comma_nonempty s : split_comma s <> [].
Proof.
  destruct s as [|c rest]; cbn; [discriminate|].
  destruct (Ascii.eqb c ","); [discriminate|].
  destruct (split_comma rest); discriminate.
Qed.

Lemma split_comma_whole s : has_comma s = false -> split_comma s = [s].
Proof.
  induction s as [|c rest IH]; cbn; [reflexivity|].
  destruct (Ascii.eqb c ","); cbn; [discriminate|].
  intros H. rewrite (IH H). reflexivity.
Qed.

Lemma split_comma_app p rest :
  has_comma p = false ->
  split_comma (p ++ "," ++ rest) = p :: split_comma rest.
Proof.
  induction p as [|c p IH]; cbn in *.
  - reflexivity.
  - destruct (Ascii.eqb c ","); cbn; [discriminate|].
    intros H. rewrite (IH H). reflexivity.
Qed.

Lemma join_cons sep p q ps :
  join sep (p :: q :: ps) = p ++ sep ++ join sep (q :: ps).
Proof. reflexivity. Qed.

(** Splitting what [join] made gives the pieces back, when no piece has a
    comma in it. *)
Lemma split_comma_join parts :
  parts <> [] ->
  Forall (fun part => has_comma part = false) parts ->
  split_comma (join "," parts) = parts.
Proof.
  intros Hne Hall. induction Hall as [|p ps Hp Hps IH]; [congruence|].
  destruct ps as [|q ps].
  - cbn. now apply split_comma_whole.
  - rewrite join_cons, (split_comma_app p _ Hp).
    f_equal. apply IH. discriminate.
Qed.

Lemma uint_digits_no_comma d :
  has_comma (NilEmpty.string_of_uint d) = false.
Proof. induction d; cbn; auto. Qed.

Lemma uint_digits_nonempty d :
  d <> Decimal.Nil -> truthy_str (NilEmpty.string_of_uint d) = true.
Proof. destruct d; cbn; congruence. Qed.

(** [str(n)] has no comma in it and is not empty. *)
Lemma str_int_no_comma z : has_comma (str_int z) = false.
Proof.
  unfold str_int. destruct (Z.to_int z) as [d|d]; cbn;
    destruct d; cbn; auto using uint_digits_no_comma.
Qed.

Lemma str_int_truthy z : truthy_str (str_int z) = true.
Proof.
  unfold str_int. destruct (Z.to_int z) as [d|d]; cbn; [|reflexivity].
  destruct d; reflexivity.
Qed.

Lemma join_truthy p ps : truthy_str p = true -> truthy_str (join "," (p :: ps)) = true.
Proof.
  destruct p as [|c p]; [discriminate|]. intros _.
  destruct ps; reflexivity.
Qed.

(** X17. What creation stores is what the reads get back: the string
    [','.join(map(str, ids))] parses to the same list of ids, in the same
    order, for every list (the empty one included), provided [int] gives
    back each of these ids from its decimal form. *)
Theorem X17_stored_product_ids_parse_back :
  forall (int : string -> result Z) (ids : list Z),
    (forall z, In z ids -> int (str_int z) = Ok z) ->
    ProductIds.parse int (join "," (List.map str_int ids)) = Ok ids.
Proof.
  intros int ids Hint. unfold ProductIds.parse.
  destruct ids as [|z zs]; [reflexivity|].
  cbn [List.map]. rewrite (join_truthy _ _ (str_int_truthy z)).
  change (str_int z :: List.map str_int zs) with (List.map str_int (z :: zs)).
  rewrite split_comma_join.
  - induction (z :: zs) as [|y ys IH]; [reflexivity|].
    cbn [List.map map_result]. rewrite (Hint y (or_introl eq_refl)).
    rewrite IH; [reflexivity|]. intros x Hx. apply Hint. now right.
  - discriminate.
  - apply Forall_forall. intros part Hin. apply in_map_iff in Hin.
    destruct Hin as (x & <- & _). apply str_int_no_comma.
Qed.

(** The decimal parser of the samples reads back what [str] writes. *)
Lemma decimal_int_str_int z : Samples.decimal_int (str_int z) = Ok z.
Proof.
  unfold Samples.decimal_int, str_int. rewrite NilZero.isi.
  - rewrite DecimalZ.of_to. reflexivity.
  - destruct z; cbn; try discriminate.
    intros H. inversion H. now apply (DecimalPos.Unsigned.to_uint_nonnil p).
  - destruct z; cbn; try discriminate.
    intros H. inversion H. now apply (DecimalPos.Unsigned.to_uint_nonnil p).
Qed.

Lemma X17_witness :
  ProductIds.parse Samples.decimal_int (join "," (List.map str_int [5; 6; 5]))
  = Ok [5; 6; 5].
Proof.
  exact (X17_stored_product_ids_parse_back Samples.decimal_int [5; 6; 5]
           (fun z _ => decimal_int_str_int z)).
Defined.

End ProductIdsFacts.

Module ReadMoreFacts.

Section WithDependencies.
Context {S : Type}.
Variable order_repository : OrderRepository.t S.
Variable product_gateway : ProductGateway.t S.
Variable int : string -> result Z.

Lemma product_details_of_nothing s :
  ListOrdersUseCase.product_details product_gateway [] s = (Ok [], s).
Proof. reflexivity. Qed.

(** What a response of the list-orders loop tells about its order. *)
Lemma order_response_mirrors order s r s' :
  ListOrdersUseCase.order_response product_gateway int order s = (Ok r, s') ->
  Order.id order = Some (OrderPublic.id r) /\
  OrderPublic.total_price r = Order.total_price order /\
  OrderPublic.status r = Order.status order /\
  exists ids,
    ProductIds.parse int (Order.product_ids order) = Ok ids /\
    (ids = [] -> OrderPublic.products r = [] /\ s' = s).
Proof.
  unfold ListOrdersUseCase.order_response, bind, lift.
  destruct (ProductIds.parse int (Order.product_ids order)) as [ids|e];
    [|discriminate].
  destruct (ListOrdersUseCase.product_details product_gateway ids s)
    as [[details|e] s1] eqn:Hd; [|discriminate].
  destruct (Order.id order) as [i|]; cbn [OrderPublic.new]; [|discriminate].
  assert (Hempty : ids = [] -> details = [] /\ s1 = s).
  { intros ->. rewrite product_details_of_nothing in Hd.
    inversion Hd. now split. }
  destruct (truthy_dict _); unfold ret; intros H; inversion H; subst; cbn;
    repeat split; try reflexivity; exists ids; (split; [reflexivity|]);
    intros E; destruct (Hempty E) as [-> ->]; now split.
Qed.

(** X18. When list-orders returns, it returns one response per order of
    the page the store gave, in the same order; each response carries the
    id, the total price and the status of its order as stored (the price is
    not worked out again from the products), and every order of the page
    had an id and product ids that parse; an order without product ids gets
    an empty product list without the gateway being asked. *)
Theorem X18_listing_mirrors_the_stored_page :
  forall (limit skip : Z) (s0 : S) (orders : list Order.t) (s1 : S)
         (responses : list OrderPublic.t) (s' : S),
    OrderRepository.list_orders order_repository limit skip s0
      = (Ok orders, s1) ->
    ListOrdersUseCase.execute order_repository product_gateway int limit skip s0
      = (Ok responses, s') ->
    Forall2
      (fun order r =>
         Order.id order = Some (OrderPublic.id r) /\
         OrderPublic.total_price r = Order.total_price order /\
         OrderPublic.status r = Order.status order /\
         exists ids,
           ProductIds.parse int (Order.product_ids order) = Ok ids /\
           (ids = [] -> OrderPublic.products r = []))
      orders responses.
Proof.
  intros limit skip s0 orders s1 responses s' Hlist.
  unfold ListOrdersUseCase.execute, bind. rewrite Hlist. clear Hlist.
  revert s1 responses. induction orders as [|order rest IH];
    intros s1 responses.
  - cbn. unfold ret. intros H. inversion H. constructor.
  - cbn [ListOrdersUseCase.for_each]. unfold bind.
    destruct (ListOrdersUseCase.order_response product_gateway int order s1)
      as [[r|e] s2] eqn:Hr; [|discriminate].
    destruct (ListOrdersUseCase.for_each product_gateway int rest s2)
      as [[rs|e] s3] eqn:Hrs; [|discriminate].
    unfold ret. intros H. inversion H; subst.
    constructor; [|exact (IH s2 rs Hrs)].
    destruct (order_response_mirrors order s1 r s2 Hr)
      as (H1 & H2 & H3 & ids & H4 & H5).
    repeat split; try assumption. exists ids. split; [exact H4|].
    intros E. exact (proj1 (H5 E)).
Qed.

(** X19. [get_order] raises nothing but [ValueError], and the text always
    begins with "Error retrieving order: "; for an id the store does not
    have it names the id, and product ids that do not parse are reported
    this way too. *)
Theorem X19_get_order_raises_only_value_errors :
  forall (order_id : Z) (s0 : S),
    (forall e s',
        OrderController.get_order order_repository product_gateway int
          order_id s0 = (Raise e, s') ->
        exists msg, e = ValueError ("Error retrieving order: " ++ msg)) /\
    (forall s1,
        OrderRepository.get_by_id order_repository order_id s0 = (Ok None, s1) ->
        OrderController.get_order order_repository product_gateway int
          order_id s0
        = (Raise (ValueError ("Error retrieving order: Order with ID "
                              ++ str_int order_id ++ " not found")), s1)) /\
    (forall order s1 e,
        OrderRepository.get_by_id order_repository order_id s0
          = (Ok (Some order), s1) ->
        ProductIds.parse int (Order.product_ids order) = Raise e ->
        OrderController.get_order order_repository product_gateway int
          order_id s0
        = (Raise (ValueError ("Error retrieving order: " ++ str_exn e)), s1)).
Proof.
  intros order_id s0. split; [|split].
  - intros e s'. unfold OrderController.get_order, try_except.
    match goal with |- context [match ?c s0 with _ => _ end] =>
      destruct (c s0) as [[r|e0] s1] end.
    + discriminate.
    + unfold raise. intros H. inversion H. eexists. reflexivity.
  - intros s1 Hget.
    unfold OrderController.get_order, try_except, bind. rewrite Hget.
    reflexivity.
  - intros order s1 e Hget Hparse.
    unfold OrderController.get_order, try_except, bind. rewrite Hget.
    unfold lift. rewrite Hparse. reflexivity.
Qed.

End WithDependencies.

Import Samples.

Lemma X18_witness :
  Forall2
    (fun order r =>
       Order.id order = Some (OrderPublic.id r) /\
       OrderPublic.total_price r = Order.total_price order /\
       OrderPublic.status r = Order.status order /\
       exists ids,
         ProductIds.parse decimal_int (Order.product_ids order) = Ok ids /\
         (ids = [] -> OrderPublic.products r = []))
    [stored "5,6"]
    [OrderPublic.mk 1 100 OrderStatus.RECEIVED
       [ProductDetail.of_product coffee; ProductDetail.of_product cake]
       (Some [("name", Some "Test User"); ("email", Some "test@example.com")])].
Proof.
  exact (X18_listing_mirrors_the_stored_page (Mock.order_repository healthy)
           (Mock.product_gateway healthy) decimal_int 10 0 []
           [stored "5,6"] [Mock.ListOrders 10 0] _
           [Mock.ListOrders 10 0; Mock.GetProducts [5; 6]]
           eq_refl eq_refl).
Defined.

Lemma X19_witness :
  OrderController.get_order (Mock.order_repository MoreSamples.empty_store)
    (Mock.product_gateway MoreSamples.empty_store) decimal_int 999 []
  = (Raise (ValueError "Error retrieving order: Order with ID 999 not found"),
     [Mock.GetById 999]).
Proof.
  exact (proj1 (proj2 (X19_get_order_raises_only_value_errors
                         (Mock.order_repository MoreSamples.empty_store)
                         (Mock.product_gateway MoreSamples.empty_store)
                         decimal_int 999 []))
           [Mock.GetById 999] eq_refl).
Defined.

End ReadMoreFacts.

Module LifecycleFacts.
Import Mock.

(** X20. A status update checks nothing about the current status: for an
    order the store finds, whatever its status and whatever the new one,
    the second call made is the store's update, with the order changed in
    its status only.  For an id the store does not have, the use case
    raises [ValueError "Order not found"] and the store is not asked to
    update anything. *)
Theorem X20_status_is_overwritten_unconditionally :
  forall (sc : script) (int : string -> result Z) (order_id : Z)
         (status : OrderStatus.t) (log : list call),
    (on_get_by_id sc log order_id = Ok None ->
     UpdateOrderStatusUseCase.execute (order_repository sc) (product_gateway sc)
       int order_id status log
     = (Raise (ValueError "Order not found"), (log ++ [GetById order_id])%list)) /\
    (forall order,
        on_get_by_id sc log order_id = Ok (Some order) ->
        exists rest,
          snd (UpdateOrderStatusUseCase.execute (order_repository sc)
                 (product_gateway sc) int order_id status log)
          = (log ++ [GetById order_id;
                     Update (Order.mk (Order.id order) (Order.total_price order)
                               (Order.product_ids order) status
                               (Order.created_at order) (Order.updated_at order)
                               (Order.user_name order) (Order.user_email order)
                               (Order.user_cpf order))]
                 ++ rest)%list).
Proof.
  intros sc int order_id status log. split.
  - intros Hget. unfold UpdateOrderStatusUseCase.execute, bind.
    cbn [OrderRepository.get_by_id order_repository recorded].
    rewrite Hget. reflexivity.
  - intros order Hget. unfold UpdateOrderStatusUseCase.execute, bind.
    cbn [OrderRepository.get_by_id OrderRepository.update order_repository
         recorded].
    rewrite Hget. unfold Order.set_status.
    set (changed := Order.mk _ _ _ status _ _ _ _ _).
    destruct (on_update sc (log ++ [GetById order_id])%list changed)
      as [updated|e];
      [|exists []; cbn [snd]; rewrite <- !app_assoc; reflexivity].
    unfold lift.
    destruct (ProductIds.parse int (Order.product_ids updated)) as [ids|e];
      [|exists []; cbn [snd]; rewrite <- !app_assoc; reflexivity].
    unfold ListOrdersUseCase.product_details.
    destruct (ProductIds.nonempty ids).
    + unfold try_except_ValueError, try_except, bind.
      cbn [ProductGateway.get_products product_gateway recorded].
      exists [GetProducts ids].
      destruct (on_get_products sc _ ids) as [ps|e].
      * unfold ret. destruct (OrderPublic.new _ _ _ _);
          [destruct (truthy_dict _)|]; cbn [snd];
          rewrite <- !app_assoc; reflexivity.
      * destruct (is_ValueError e); unfold ret, raise;
          [destruct (OrderPublic.new _ _ _ _); [destruct (truthy_dict _)|]|];
          cbn [snd]; rewrite <- !app_assoc; reflexivity.
    + exists []. unfold ret. destruct (OrderPublic.new _ _ _ _);
        [destruct (truthy_dict _)|]; cbn [snd];
        rewrite <- !app_assoc; reflexivity.
Qed.

(** X21. Asking payment for an id the store does not have raises
    [ValueError] naming the id; nothing is published and nothing is
    updated. *)
Theorem X21_payment_for_unknown_order :
  forall (sc : script) (order_id : Z) (log : list call),
    on_get_by_id sc log order_id = Ok None ->
    RequestPaymentUseCase.execute (order_repository sc) (message_broker sc)
      order_id log
    = (Raise (ValueError ("Order with ID " ++ str_int order_id ++ " not found")),
       (log ++ [GetById order_id])%list).
Proof.
  intros sc order_id log Hget.
  unfold RequestPaymentUseCase.execute, bind.
  cbn [OrderRepository.get_by_id order_repository recorded].
  rewrite Hget. reflexivity.
Qed.

(** X22. The publish and the update are not undone together: when the
    message has been published and the store's update then raises, the
    use case raises [ValueError] (worded as a publishing error, with the
    store's message), and the message stays published. *)
Theorem X22_failed_update_leaves_the_message_published :
  forall (sc : script) (order_id : Z) (log : list call) (order : Order.t)
         (e : exn),
    let request := RequestPaymentUseCase.payment_request order in
    let log1 := (log ++ [GetById order_id])%list in
    let log2 := (log1 ++ [Publish "payment_requests" request])%list in
    let awaiting := Order.set_status OrderStatus.AWAITING_PAYMENT order in
    on_get_by_id sc log order_id = Ok (Some order) ->
    on_publish sc log1 "payment_requests" request = Ok tt ->
    on_update sc log2 awaiting = Raise e ->
    RequestPaymentUseCase.execute (order_repository sc) (message_broker sc)
      order_id log
    = (Raise (ValueError ("Erro ao publicar mensagem de pagamento: "
                          ++ str_exn e)),
       (log2 ++ [Update awaiting])%list).
Proof.
  intros sc order_id log order e request log1 log2 awaiting Hget Hpub Hupd.
  unfold RequestPaymentUseCase.execute, bind.
  cbn [OrderRepository.get_by_id order_repository recorded].
  rewrite Hget. fold log1. unfold try_except, bind.
  cbn [MessageBroker.publish message_broker recorded].
  fold request. rewrite Hpub. fold log2.
  cbn [OrderRepository.update order_repository recorded].
  fold awaiting. rewrite Hupd. reflexivity.
Qed.

Import Samples MoreSamples.

Lemma X20_witness :
  UpdateOrderStatusUseCase.execute (order_repository empty_store)
    (product_gateway empty_store) decimal_int 999 OrderStatus.READY []
  = (Raise (ValueError "Order not found"), [GetById 999]) /\
  exists rest,
    snd (UpdateOrderStatusUseCase.execute (order_repository healthy)
           (product_gateway healthy) decimal_int 1 OrderStatus.RECEIVED [])
    = ([] ++ [GetById 1;
              Update (Order.mk (Some 1) 100 "5,6" OrderStatus.RECEIVED 0 0
                        (Some "Test User") (Some "test@example.com")
                        (Some "12345678901"))] ++ rest)%list.
Proof.
  split.
  - exact (proj1 (X20_status_is_overwritten_unconditionally empty_store
                    decimal_int 999 OrderStatus.READY []) eq_refl).
  - exact (proj2 (X20_status_is_overwritten_unconditionally healthy
                    decimal_int 1 OrderStatus.RECEIVED []) (stored "5,6") eq_refl).
Defined.

Lemma X21_witness :
  RequestPaymentUseCase.execute (order_repository empty_store)
    (message_broker empty_store) 999 []
  = (Raise (ValueError "Order with ID 999 not found"), [GetById 999]).
Proof. exact (X21_payment_for_unknown_order empty_store 999 [] eq_refl). Defined.

Lemma X22_witness :
  RequestPaymentUseCase.execute (order_repository failing_update)
    (message_broker failing_update) 1 []
  = (Raise (ValueError
       "Erro ao publicar mensagem de pagamento: database is locked"),
     [GetById 1;
      Publish "payment_requests"
        (RequestPaymentUseCase.payment_request (stored "5,6"));
      Update (Order.set_status OrderStatus.AWAITING_PAYMENT (stored "5,6"))]).
Proof.
  exact (X22_failed_update_leaves_the_message_published failing_update 1 []
           (stored "5,6") (OtherException "database is locked")
           eq_refl eq_refl eq_refl).
Defined.

End LifecycleFacts.

Module WorkerMoreFacts.
Import Worker.

Section WithOrderService.
Variable requests_put :
  list event -> string -> Json.value -> string -> result put_response.
Variable order_service : OrderUpdateService.

Lemma update_order_status_returns order_id payment_status log :
  exists r,
    update_order_status requests_put order_service order_id payment_status log
    = (Ok r,
       (log ++ puts_for (order_service_url order_service) order_id
                        payment_status)%list).
Proof.
  unfold puts_for.
  destruct payment_status as [| b | z | q | code | items | d];
    try (eexists; unfold update_order_status, try_except, bind, lift; cbn;
         rewrite app_nil_r; reflexivity).
  destruct (dict_get status_map code) as [order_status|] eqn:Hmap.
  - exact (WorkerFacts.update_order_status_mapped requests_put order_service
             order_id code order_status log Hmap).
  - exists Unmapped. rewrite app_nil_r.
    exact (WorkerFacts.update_order_status_unmapped requests_put order_service
             order_id code log Hmap).
Qed.

(** X23. [update_order_status] never raises, whatever the order id, the
    payment status and the behaviour of the order service: it always
    returns a result dict.  It makes one PUT, with the mapped status, when
    the payment status is a string found in the table, and no request at
    all otherwise (a status that is not a string included). *)
Theorem X23_update_order_status_always_returns :
  forall (order_id payment_status : Json.value) (log : list event),
  exists r,
    update_order_status requests_put order_service order_id payment_status log
    = (Ok r,
       (log ++ puts_for (order_service_url order_service) order_id
                        payment_status)%list).
Proof.
  intros order_id payment_status log. unfold puts_for.
  destruct payment_status as [| b | z | q | code | items | d];
    try (eexists; unfold update_order_status, try_except, bind, lift; cbn;
         rewrite app_nil_r; reflexivity).
  destruct (dict_get status_map code) as [order_status|] eqn:Hmap.
  - exact (WorkerFacts.update_order_status_mapped requests_put order_service
             order_id code order_status log Hmap).
  - exists Unmapped. rewrite app_nil_r.
    exact (WorkerFacts.update_order_status_unmapped requests_put order_service
             order_id code log Hmap).
Qed.

Lemma callback_not_object delivery_tag message log :
  is_object message = false ->
  callback requests_put delivery_tag (Json message) order_service log
  = (Ok tt, (log ++ [Nack delivery_tag false])%list).
Proof. destruct message; try discriminate; reflexivity. Qed.

(** X24. Whatever the body of the message and whatever the order service
    does, [callback] returns, and it settles the delivery exactly once, as
    the last thing it does: with an ack, or with a nack that does not
    requeue.  Before that it has made at most one PUT and nothing else. *)
Theorem X24_every_delivery_is_settled_once :
  forall (delivery_tag : Z) (b : body) (log : list event),
  exists puts settle,
    callback requests_put delivery_tag b order_service log
    = (Ok tt, (log ++ puts ++ [settle])%list) /\
    (settle = Ack delivery_tag \/ settle = Nack delivery_tag false) /\
    (puts = [] \/ exists order_id order_status,
                    puts = [Put (order_service_url order_service)
                                order_id order_status]).
Proof.
  intros delivery_tag b log.
  destruct b as [raw | raw | message].
  { exists [], (Nack delivery_tag false). split; [reflexivity | auto]. }
  { exists [], (Ack delivery_tag). split; [reflexivity | auto]. }
  destruct (is_object message) eqn:Hobj.
  2:{ exists [], (Nack delivery_tag false).
      split; [exact (callback_not_object delivery_tag message log Hobj) | auto]. }
  destruct message as [| bb | z | q | str | items | d]; try discriminate.
  unfold callback, try_except, bind, lift. cbn [json_loads Json.get].
  set (order_id := match dict_get d "order_id" with Some v => v | None => Json.Null end).
  set (status := match dict_get d "status" with Some v => v | None => Json.Null end).
  assert (Hoid : (match dict_get d "order_id" with
                  | Some v => Ok v | None => Ok Json.Null end) = Ok order_id).
  { subst order_id. destruct (dict_get d "order_id"); reflexivity. }
  assert (Hst : (match dict_get d "status" with
                 | Some v => Ok v | None => Ok Json.Null end) = Ok status).
  { subst status. destruct (dict_get d "status"); reflexivity. }
  rewrite Hoid, Hst.
  destruct (negb (Json.truthy order_id) || negb (Json.truthy status)).
  - exists [], (Ack delivery_tag). split; [reflexivity | auto].
  - destruct (update_order_status_returns order_id status log) as [r Hr].
    rewrite Hr. unfold basic_ack.
    exists (puts_for (order_service_url order_service) order_id status),
           (Ack delivery_tag).
    split; [rewrite <- app_assoc; reflexivity|]. split; [now left|].
    unfold puts_for. destruct status as [| | | | code | |]; auto.
    destruct (dict_get status_map code); [right; eauto | now left].
Qed.

(** X25. What becomes of a body that is no payment response.  Text that
    is not JSON is acknowledged, so it is dropped, not redelivered.  Bytes
    that do not decode as text make [json.loads] raise
    [UnicodeDecodeError], which is not a [json.JSONDecodeError]: the
    delivery is rejected without requeue.  So is a JSON body that is not
    an object (a list, a number, a string, ...).  In all three cases
    nothing is sent to the order service. *)
Theorem X25_malformed_bodies_are_dropped :
  forall (delivery_tag : Z) (log : list event),
    (forall raw,
        callback requests_put delivery_tag (NotJson raw) order_service log
        = (Ok tt, (log ++ [Ack delivery_tag])%list)) /\
    (forall raw,
        callback requests_put delivery_tag (NotText raw) order_service log
        = (Ok tt, (log ++ [Nack delivery_tag false])%list)) /\
    (forall message,
        is_object message = false ->
        callback requests_put delivery_tag (Json message) order_service log
        = (Ok tt, (log ++ [Nack delivery_tag false])%list)).
Proof.
  intros delivery_tag log. split; [|split].
  - intros raw. reflexivity.
  - intros raw. reflexivity.
  - intros message Hobj. now apply callback_not_object.
Qed.

End WithOrderService.

Import Samples.

Lemma X25_witness :
  callback accepting 7 (Json (Json.List [Json.Int 1])) order_service []
  = (Ok tt, [Nack 7 false]) /\
  callback accepting 8 (NotText "ff") order_service [] = (Ok tt, [Nack 8 false]) /\
  callback accepting 9 (NotJson "{") order_service [] = (Ok tt, [Ack 9]).
Proof.
  split; [|split].
  - exact (proj2 (proj2 (X25_malformed_bodies_are_dropped accepting order_service
                           7 []))
             (Json.List [Json.Int 1]) eq_refl).
  - exact (proj1 (proj2 (X25_malformed_bodies_are_dropped accepting order_service
                           8 [])) "ff").
  - exact (proj1 (X25_malformed_bodies_are_dropped accepting order_service 9 [])
             "{").
Defined.

End WorkerMoreFacts.

Module BrokerFacts.
Import RabbitMQBroker.

Section WithPika.
Variable p : pika.

Lemma ensure_when_usable self log :
  unusable p self log = false ->
  _ensure_connection p (self, log) = (Ok tt, (self, log)).
Proof. intros H. unfold _ensure_connection. rewrite H. reflexivity. Qed.

(** X26. [publish] connects only when it has to.  With a connection that
    is open, and a channel, it declares the queue as durable and publishes
    the message persistently (delivery mode 2) to the default exchange,
    and does nothing else.  With no connection, or a closed one, it first
    tries to connect; if that fails the exception goes to the caller, and
    nothing is declared or published. *)
Theorem X26_publish_connects_only_when_needed :
  forall (self : t) (log : list event) (queue : string)
         (message : PaymentRequest.t),
    (forall ch,
        unusable p self log = false ->
        channel self = Some ch ->
        on_queue_declare p log queue = Ok tt ->
        on_basic_publish p (log ++ [QueueDeclare queue true]) queue message
          = Ok tt ->
        publish p queue message (self, log)
        = (Ok tt,
           (self, (log ++ [QueueDeclare queue true;
                           BasicPublish "" queue message 2])%list))) /\
    (forall e,
        unusable p self log = true ->
        on_connect p log = Raise e ->
        publish p queue message (self, log)
        = (Raise e, (self, (log ++ [Connect])%list))).
Proof.
  intros self log queue message. split.
  - intros ch Huse Hch Hdecl Hpub. unfold publish, bind.
    rewrite (ensure_when_usable self log Huse).
    unfold try_except, bind, queue_declare, basic_publish.
    rewrite Hch, Hdecl, Hch, Hpub. rewrite <- app_assoc. reflexivity.
  - intros e Huse Hconn. unfold publish, bind, _ensure_connection.
    rewrite Huse. unfold BlockingConnection. rewrite Hconn. reflexivity.
Qed.

(** X27. When declaring the queue or publishing raises, [publish] forgets
    its connection and raises the same exception.  With an open connection
    but no channel (the connection was made and opening the channel
    failed) the attribute lookup on [None] raises [AttributeError] before
    pika is called, and the connection is forgotten as well.  From then on
    the broker counts as unconnected whatever pika says, so the next
    [publish] starts by connecting again. *)
Theorem X27_failed_publish_drops_the_connection :
  forall (self : t) (log : list event) (queue : string)
         (message : PaymentRequest.t),
    unusable p self log = false ->
    (forall ch e,
        channel self = Some ch ->
        on_queue_declare p log queue = Raise e ->
        publish p queue message (self, log)
        = (Raise e, (mk None (Some ch),
                     (log ++ [QueueDeclare queue true])%list))) /\
    (forall ch e,
        channel self = Some ch ->
        on_queue_declare p log queue = Ok tt ->
        on_basic_publish p (log ++ [QueueDeclare queue true]) queue message
          = Raise e ->
        publish p queue message (self, log)
        = (Raise e, (mk None (Some ch),
                     (log ++ [QueueDeclare queue true;
                              BasicPublish "" queue message 2])%list))) /\
    (channel self = None ->
     publish p queue message (self, log)
     = (Raise (AttributeError
                 "'NoneType' object has no attribute 'queue_declare'"),
        (mk None None, log))) /\
    (forall log' queue' message',
        exists rest,
          snd (snd (publish p queue' message' (mk None (channel self), log')))
          = (log' ++ Connect :: rest)%list).
Proof.
  intros self log queue message Huse. split; [|split; [|split]].
  - intros ch e Hch Hdecl. unfold publish, bind.
    rewrite (ensure_when_usable self log Huse).
    unfold try_except, bind, queue_declare. rewrite Hch, Hdecl, Hch. reflexivity.
  - intros ch e Hch Hdecl Hpub. unfold publish, bind.
    rewrite (ensure_when_usable self log Huse).
    unfold try_except, bind, queue_declare, basic_publish.
    rewrite Hch, Hdecl, Hch, Hpub, Hch. rewrite <- app_assoc. reflexivity.
  - intros Hch. unfold publish, bind.
    rewrite (ensure_when_usable self log Huse).
    unfold try_except, bind, queue_declare. rewrite Hch, Hch. reflexivity.
  - intros log' queue' message'.
    unfold publish, bind, _ensure_connection, unusable.
    cbn [connection]. unfold BlockingConnection, open_channel.
    destruct (on_connect p log') as [[]|e1]; [|exists []; reflexivity].
    destruct (on_channel p (log' ++ [Connect])) as [[]|e2];
      [|exists [OpenChannel]; cbn [snd]; rewrite <- app_assoc; reflexivity].
    unfold try_except, bind, queue_declare, basic_publish. cbn [channel].
    destruct (on_queue_declare p _ queue') as [[]|e3].
    + destruct (on_basic_publish p _ queue' message') as [[]|e4];
        eexists; cbn [snd]; rewrite <- !app_assoc; reflexivity.
    + eexists; cbn [snd]; rewrite <- !app_assoc; reflexivity.
Qed.

End WithPika.

Import MoreSamples.

Lemma X26_witness :
  publish pika_up "payment_requests" payment (mk (Some 0%nat) (Some 1%nat), [Connect; OpenChannel])
  = (Ok tt,
     (mk (Some 0%nat) (Some 1%nat),
      [Connect; OpenChannel; QueueDeclare "payment_requests" true;
       BasicPublish "" "payment_requests" payment 2])) /\
  publish pika_down "payment_requests" payment (mk None None, [Connect])
  = (Raise (OtherException "connection refused"),
     (mk None None, [Connect; Connect])).
Proof.
  split.
  - exact (proj1 (X26_publish_connects_only_when_needed pika_up
                    (mk (Some 0%nat) (Some 1%nat)) [Connect; OpenChannel]
                    "payment_requests" payment)
             1%nat eq_refl eq_refl eq_refl eq_refl).
  - exact (proj2 (X26_publish_connects_only_when_needed pika_down
                    (mk None None) [Connect] "payment_requests" payment)
             (OtherException "connection refused") eq_refl eq_refl).
Defined.

Lemma X27_witness :
  publish pika_flaky "payment_requests" payment
    (mk (Some 0%nat) (Some 1%nat), [Connect; OpenChannel])
  = (Raise (OtherException "channel closed"),
     (mk None (Some 1%nat),
      [Connect; OpenChannel; QueueDeclare "payment_requests" true;
       BasicPublish "" "payment_requests" payment 2])) /\
  publish pika_up "payment_requests" payment (mk (Some 0%nat) None, [Connect])
  = (Raise (AttributeError "'NoneType' object has no attribute 'queue_declare'"),
     (mk None None, [Connect])).
Proof.
  split.
  - exact (proj1 (proj2 (X27_failed_publish_drops_the_connection pika_flaky
                           (mk (Some 0%nat) (Some 1%nat)) [Connect; OpenChannel]
                           "payment_requests" payment eq_refl))
             1%nat (OtherException "channel closed") eq_refl eq_refl eq_refl).
  - exact (proj1 (proj2 (proj2 (X27_failed_publish_drops_the_connection pika_up
                                  (mk (Some 0%nat) None) [Connect]
                                  "payment_requests" payment eq_refl)))
             eq_refl).
Defined.

End BrokerFacts.
